(** * ChatbotWidget: input assistance and conversation state

    A shallow embedding of the help-surface coordinator, the suggestion
    resolver and the message send cycle of [static/chatbot.js]
    (class [ChatbotWidget]).

    Conventions of the embedding.
    - Texts typed by the user or sent by the server are ASCII: a JavaScript
      string is a [string], one character per code unit.  White space
      ([trim], the class [\s]) and letter case ([toLowerCase], the [i] flag)
      are those of ASCII.  The fixed texts of the widget keep the bytes of
      the source file and are only compared as wholes.
    - The fields of [this] and the few DOM nodes the methods touch form the
      record [widget]; every method is a function on that record.  The
      nodes exist: [createWidget] has run.  Styling, logging and the
      settings dialogue are left out.
    - [setTimeout] appends a callback to a queue of pending timers and
      [clearTimeout] removes it; an [async] method is cut at its [await]:
      the part before it is one function, the part after it another one
      that takes what the [fetch] promise settled to.
    - Line numbers refer to [static/chatbot.js]. *)

From Stdlib Require Import List String Ascii Bool Arith ZArith Lia DecimalString.
Import ListNotations.
Open Scope string_scope.
Open Scope nat_scope.

Set Implicit Arguments.

(* ------------------------------------------------------------------ *)
(** ** JavaScript string and array primitives *)

Module Js.

(** Characters matched by [\s] and removed by [String.prototype.trim]:
    TAB, LF, VT, FF, CR and SPACE. *)
Definition is_space (c : ascii) : bool :=
  let n := nat_of_ascii c in
  ((9 <=? n) && (n <=? 13)) || (n =? 32).

Definition lower_char (c : ascii) : ascii :=
  let n := nat_of_ascii c in
  if (65 <=? n) && (n <=? 90) then ascii_of_nat (n + 32) else c.

Fixpoint toLowerCase (s : string) : string :=
  match s with
  | EmptyString => EmptyString
  | String c r => String (lower_char c) (toLowerCase r)
  end.

Fixpoint trimStart (s : string) : string :=
  match s with
  | EmptyString => EmptyString
  | String c r => if is_space c then trimStart r else s
  end.

Fixpoint trimEnd (s : string) : string :=
  match s with
  | EmptyString => EmptyString
  | String c r =>
      match trimEnd r with
      | EmptyString => if is_space c then EmptyString else String c EmptyString
      | r' => String c r'
      end
  end.

Definition trim (s : string) : string := trimEnd (trimStart s).

(** [s.startsWith(p)] *)
Fixpoint startsWith (s p : string) {struct p} : bool :=
  match p with
  | EmptyString => true
  | String a p' =>
      match s with
      | EmptyString => false
      | String b s' => Ascii.eqb a b && startsWith s' p'
      end
  end.

(** [s.includes(p)]: [p] starts at some index of [s]. *)
Fixpoint includes (s p : string) : bool :=
  startsWith s p ||
  match s with
  | EmptyString => false
  | String _ r => includes r p
  end.

(** JavaScript truthiness of a string value: [""] is falsy. *)
Definition nonempty (s : string) : bool :=
  match s with EmptyString => false | _ => true end.

(** Pieces of [s] between separators; [sep] tells a separator character and
    [run] whether a maximal run of separators counts as one.  [cur] is the
    piece being read, reversed. *)
Fixpoint rev_string (acc s : string) : string :=
  match s with
  | EmptyString => acc
  | String c r => rev_string (String c acc) r
  end.

Fixpoint split_aux (sep : ascii -> bool) (run : bool) (after_sep : bool)
         (cur : string) (s : string) : list string :=
  match s with
  | EmptyString => [rev_string "" cur]
  | String c r =>
      if sep c then
        if run && after_sep then split_aux sep run true cur r
        else rev_string "" cur :: split_aux sep run true "" r
      else split_aux sep run false (String c cur) r
  end.

(** [s.split(/\s+/)] *)
Definition split_ws (s : string) : list string :=
  split_aux is_space true false "" s.

(** [s.split(' ')] *)
Definition split_space (s : string) : list string :=
  split_aux (fun c => Ascii.eqb c " "%char) false false "" s.

(** [arr.includes(x)] on an array of strings. *)
Definition arr_includes (arr : list string) (x : string) : bool :=
  existsb (String.eqb x) arr.

(** [[...new Set(arr)]]: the distinct entries in first-seen order. *)
Fixpoint uniq_from (seen arr : list string) : list string :=
  match arr with
  | [] => []
  | x :: r =>
      if arr_includes seen x then uniq_from seen r
      else x :: uniq_from (x :: seen) r
  end.

Definition set_spread (arr : list string) : list string := uniq_from [] arr.

(** [arr.slice(0, n)] for [0 <= n]. *)
Definition slice0 (n : nat) (arr : list string) : list string := firstn n arr.

(** Last element of a non-empty array ([arr[arr.length - 1]]); the
    [undefined] of an empty one never arises for the result of [split]. *)
Definition last_of (arr : list string) : string := List.last arr "".

End Js.

(* ------------------------------------------------------------------ *)
(** ** Reducing a candidate list to at most three chips *)

(** The reduction written out in [showSuggestions] (lines 2813-2825):
    distinct entries, the unused ones first, then used ones while fewer
    than three are taken. *)
Definition finalSuggestions (usedSuggestions suggestions : list string) : list string :=
  let uniqueSuggestions := Js.set_spread suggestions in
  let unusedSuggestions :=
    filter (fun s => negb (Js.arr_includes usedSuggestions s)) uniqueSuggestions in
  let finalSuggestions := Js.slice0 3 unusedSuggestions in
  if (List.length finalSuggestions <? 3)
     && (List.length unusedSuggestions <? List.length uniqueSuggestions)
  then
    let usedButAvailable :=
      filter (fun s => Js.arr_includes usedSuggestions s) uniqueSuggestions in
    let needed := 3 - List.length finalSuggestions in
    finalSuggestions ++ Js.slice0 needed usedButAvailable
  else finalSuggestions.

(** The same reduction as [loadGreeting] (lines 1592-1599) and
    [sendMessageWithQuery] (lines 2158-2165) write it before arming the
    timer that reveals the chips. *)
Definition limitedSuggestions (usedSuggestions suggestions : list string) : list string :=
  let uniqueSuggestions := Js.set_spread suggestions in
  let unusedSuggestions :=
    filter (fun s => negb (Js.arr_includes usedSuggestions s)) uniqueSuggestions in
  let limitedSuggestions := Js.slice0 3 unusedSuggestions in
  if List.length limitedSuggestions <? 3 then
    let usedButAvailable :=
      filter (fun s => Js.arr_includes usedSuggestions s) uniqueSuggestions in
    limitedSuggestions ++ Js.slice0 (3 - List.length limitedSuggestions) usedButAvailable
  else limitedSuggestions.

(** The candidates of [showSuggestionsIfAvailable] and what it hands on
    (lines 1946-1956). *)
Definition allSuggestions : list string :=
  [ "What are all the column names in this file?";
    "How many consignments are there in total?";
    "What is the total transportation cost?";
    "What are all the source locations?";
    "What products are being shipped?" ].

Definition suggestionsToShow (usedSuggestions : list string) : list string :=
  let unusedSuggestions :=
    filter (fun s => negb (Js.arr_includes usedSuggestions s)) allSuggestions in
  if 0 <? List.length unusedSuggestions then Js.slice0 3 unusedSuggestions
  else Js.slice0 3 allSuggestions.

(** The list [loadGreeting] falls back to (lines 1631-1635). *)
Definition defaultSuggestions : list string :=
  Js.slice0 3
    [ "What are all the column names in this file?";
      "How many consignments are there in total?";
      "What is the total transportation cost?" ].

(* ------------------------------------------------------------------ *)
(** ** Fixed texts *)

Definition defaultGreeting : string :=
  "👋 Hello! I'm your Logistics Data Assistant. I can help you analyze your Excel/CSV files and answer questions about your logistics data. Please upload a file to begin.".

Definition emptyQueryAdvice : string :=
  "Please type a question before sending. You can also click on suggested questions below!".

Definition noAnswerProvided : string := "No answer provided".

Definition personalInfoRefusal : string :=
  "I'm sorry, I don't have access to personal information or individual details. I can only help you with aggregated logistics data, such as:

• Total consignments, costs, and metrics
• Product information and shipping details
• Source and destination locations
• Transportation and utilization statistics

Please ask questions about your logistics data instead.".

Definition timeoutText : string :=
  "Request timed out. The server may be slow or unresponsive. Please try again.".

Definition connectivityChecklist (apiUrl : string) : string :=
  "Unable to connect to the API server at " ++ apiUrl ++ ". Please check:

" ++ "1. The server is running and accessible
" ++ "2. The API URL is correct: " ++ apiUrl ++ "
" ++ "3. There are no network or firewall issues
" ++ "4. CORS is properly configured on the server".

(* ------------------------------------------------------------------ *)
(** ** The personal-information patterns (lines 2122-2140)

    Each pattern is [/LABEL\s*[^\n]*/gi], a fresh regular expression object
    on every call, so [test] starts at index 0: the label read without
    regard to case, then white space, then characters other than a line
    feed, both runs taken greedily. *)

Definition personalInfoLabels : list string :=
  [ "Full Name"; "Mobile Number"; "Email Address"; "Current Company";
    "Current Designation"; "Current CTC"; "Exp CTC"; "Notice Period";
    "Work Experience"; "Total Experience" ].

(** The text left after reading [label] at the start of [s], if it is there. *)
Fixpoint match_label (label s : string) : option string :=
  match label, s with
  | EmptyString, _ => Some s
  | String a l, String b r =>
      if Ascii.eqb (Js.lower_char a) (Js.lower_char b) then match_label l r else None
  | String _ _, EmptyString => None
  end.

(** A greedy run [c*] of characters of a class: what is left after it. *)
Fixpoint skip_while (cls : ascii -> bool) (s : string) : string :=
  match s with
  | EmptyString => EmptyString
  | String c r => if cls c then skip_while cls r else s
  end.

Definition not_line_feed (c : ascii) : bool := negb (Ascii.eqb c "010"%char).

Definition match_pattern_at (label s : string) : option string :=
  match match_label label s with
  | Some r => Some (skip_while not_line_feed (skip_while Js.is_space r))
  | None => None
  end.

(** [pattern.test(s)]: a match at some index of [s]. *)
Fixpoint pattern_test (label s : string) : bool :=
  match match_pattern_at label s with
  | Some _ => true
  | None =>
      match s with
      | EmptyString => false
      | String _ r => pattern_test label r
      end
  end.

(** The [forEach] over the patterns that raises the flag. *)
Definition hasPersonalInfo (answer : string) : bool :=
  fold_left (fun flag label => if pattern_test label answer then true else flag)
            personalInfoLabels false.

(* ------------------------------------------------------------------ *)
(** ** The suggestion resolver ([handleAutocomplete], lines 1639-1786)

    [keywordMap] is an object literal; [Object.entries] walks its own keys in
    the order written, so it is kept as an association list. *)

Definition keywordMap : list (string * list string) :=
  [ ("what",
      [ "What are all the column names in this dataset?";
        "What is the total transportation cost?";
        "What are all the source locations?";
        "What products are being shipped?";
        "What is the total weight?" ]);
    ("how",
      [ "How many consignments are there in total?";
        "How many records are present in the file?";
        "How many unique customers are represented?";
        "How many source locations are there?" ]);
    ("which",
      [ "Which transportation mode has the highest average transportation cost?";
        "Which source location dispatches the most consignments?";
        "Which destination location receives the most consignments?" ]);
    ("when",
      [ "What is the earliest dispatch date in the dataset?";
        "What is the latest dispatch date in the dataset?" ]);
    ("where",
      [ "What are all unique source locations in the dataset?";
        "What are all unique destination locations in the dataset?" ]);
    ("show",
      [ "What are all the column names in this dataset?";
        "What are all unique products in the dataset?";
        "What are all unique customers in the dataset?" ]);
    ("list",
      [ "What are all the column names in this dataset?";
        "What are all unique products in the dataset?";
        "What are all unique source locations in the dataset?" ]);
    ("weight",
      [ "What is the total weight of all shipments?";
        "What is the average weight per consignment?";
        "How does average weight per consignment vary by transportation mode?";
        "What is the weight per case ratio for each product?" ]);
    ("kg",
      [ "What is the total weight of all shipments?";
        "What is the average weight per consignment?";
        "What is the cost per kilogram for each consignment?" ]);
    ("kilogram",
      [ "What is the total weight of all shipments?";
        "What is the average weight per consignment?";
        "What is the cost per kilogram for each consignment?" ]);
    ("cost",
      [ "What is the total transportation cost across all consignments?";
        "What is the average transportation cost per consignment?";
        "What is the cost per case for each consignment?";
        "What is the cost per kilogram for each consignment?" ]);
    ("price",
      [ "What is the total transportation cost across all consignments?";
        "What is the average transportation cost per consignment?" ]);
    ("money",
      [ "What is the total transportation cost across all consignments?";
        "What is the total consignment MRP value across all records?" ]);
    ("rupee",
      [ "What is the total transportation cost across all consignments?";
        "What is the average transportation cost per consignment?" ]);
    ("volume",
      [ "What is the average volume across all consignments?";
        "What is the total volume by transportation mode?";
        "What is the average volume fill percentage across all shipments?" ]);
    ("cubic",
      [ "What is the average volume across all consignments?";
        "What is the total volume by transportation mode?" ]);
    ("product",
      [ "What is the unique count of products in the dataset?";
        "What are all unique products in the dataset?";
        "Which product appears most frequently in the dataset?";
        "What is the weight per case ratio for each product?" ]);
    ("item",
      [ "What is the unique count of products in the dataset?";
        "What are all unique products in the dataset?" ]);
    ("customer",
      [ "How many unique customers are represented?";
        "What are all unique customers in the dataset?";
        "Which customer has the highest number of consignments?";
        "Which customer has the highest total transportation cost?" ]);
    ("client",
      [ "How many unique customers are represented?";
        "What are all unique customers in the dataset?" ]);
    ("consignment",
      [ "What is the unique count of consignment numbers?";
        "How many records are present in the file?";
        "What is the average transportation cost per consignment?";
        "What is the average weight per consignment?" ]);
    ("order",
      [ "How many unique orders are there in the dataset?";
        "Which orders contain the most cases?" ]);
    ("shipment",
      [ "What is the total weight of all shipments?";
        "What is the total transportation cost across all consignments?" ]);
    ("source",
      [ "What is the unique count of source locations?";
        "What are all unique source locations in the dataset?";
        "What are the unique source types available?";
        "How many consignments originate from each source location?" ]);
    ("destination",
      [ "What is the unique count of destination locations?";
        "What are all unique destination locations in the dataset?";
        "What are the unique destination types available?";
        "How many consignments are delivered to each destination location?" ]);
    ("location",
      [ "What is the unique count of source locations?";
        "What is the unique count of destination locations?";
        "What are all unique source locations in the dataset?";
        "What are all unique destination locations in the dataset?" ]);
    ("mode",
      [ "What are the unique transportation modes available?";
        "How many consignments use each transportation mode?";
        "What is the total transportation cost by transportation mode?" ]);
    ("transportation",
      [ "What are the unique transportation modes available?";
        "What is the total transportation cost across all consignments?";
        "What is the total transportation cost by transportation mode?" ]);
    ("vehicle",
      [ "What are the unique transportation modes available?";
        "How many consignments use each transportation mode?" ]);
    ("truck",
      [ "What are the unique transportation modes available?";
        "How many consignments use each transportation mode?" ]);
    ("case",
      [ "What is the total number of cases shipped across all consignments?";
        "What is the average number of cases per consignment?";
        "What is the cost per case for each consignment?";
        "What is the weight per case ratio for each product?" ]);
    ("cases",
      [ "What is the total number of cases shipped across all consignments?";
        "What is the average number of cases per consignment?";
        "Which orders contain the most cases?" ]) ].

(** What the property read [keywordMap[word]] gives.  Beside the own keys an
    object literal answers to the two lower-case names it inherits from
    [Object.prototype]: [constructor] (the function [Object], whose [length]
    is 1 and which has no [slice]) and [__proto__] (the prototype object,
    which has no [length]). *)
Inductive kw_value :=
| KwArray (l : list string)
| KwObjectFunction
| KwObjectPrototype
| KwUndefined.

Definition keywordMap_get (word : string) : kw_value :=
  match find (fun entry => String.eqb (fst entry) word) keywordMap with
  | Some (_, l) => KwArray l
  | None =>
      if String.eqb word "constructor" then KwObjectFunction
      else if String.eqb word "__proto__" then KwObjectPrototype
      else KwUndefined
  end.

(** First loop (lines 1709-1720): the first key the query starts with whose
    list keeps an entry that starts with the query or contains its last
    word. *)
Fixpoint starterSuggestions (trimmedQuery lastWord : string)
         (entries : list (string * list string)) : list string :=
  match entries with
  | [] => []
  | (keyword, keywordSuggestions) :: rest =>
      if Js.startsWith trimmedQuery keyword then
        let matching :=
          filter (fun s => Js.startsWith (Js.toLowerCase s) trimmedQuery
                           || Js.includes (Js.toLowerCase s) lastWord)
                 keywordSuggestions in
        if 0 <? List.length matching then matching
        else starterSuggestions trimmedQuery lastWord rest
      else starterSuggestions trimmedQuery lastWord rest
  end.

(** Second loop (lines 1723-1730): the value under the first query word that names a property
    with a truthy value; [suggestions] stays [[]] when there is none. *)
Fixpoint wordSuggestions (queryWords : list string) : kw_value :=
  match queryWords with
  | [] => KwArray []
  | word :: rest =>
      match keywordMap_get word with
      | KwUndefined => wordSuggestions rest
      | v => v
      end
  end.

Definition localSuggestions (trimmedQuery lastWord : string) : kw_value :=
  let suggestions := starterSuggestions trimmedQuery lastWord keywordMap in
  if List.length suggestions =? 0 then wordSuggestions (Js.split_ws trimmedQuery)
  else KwArray suggestions.

(** What a call of the [autocomplete] operation settles to. *)
Inductive ac_body :=
| AcMalformed                                   (* [response.json()] rejects *)
| AcParsed (suggestions : option (list string)). (* [None]: no array under [suggestions] *)

Inductive ac_fetch :=
| AcRejected                                    (* the [fetch] promise rejects *)
| AcResponse (ok : bool) (body : ac_body).

(** The steps a resolution goes through and what it does to the dropdown. *)
Inductive ac_step :=
| StepLocal
| StepRemote (searchQuery : string)
| StepFallback (lastWord : string).

Inductive ac_action :=
| AcShow (items : list string) (query : string)  (* [showAutocomplete(items, query)] *)
| AcHide                                         (* [hideAutocomplete()] *)
| AcThrow.                                       (* a [TypeError] leaves the method *)

Record resolution := { steps : list ac_step; action : ac_action }.

(** The relevance filter applied to the answer of the full-query lookup. *)
Definition relevant (trimmedQuery : string) (s : string) : bool :=
  Js.includes (Js.toLowerCase s) trimmedQuery
  || existsb (fun word => Js.includes (Js.toLowerCase s) word)
             (Js.split_space trimmedQuery).

(** The part of [handleAutocomplete] that runs before the first [await]. *)
Inductive local_result :=
| Guarded                                        (* one of the two length guards *)
| LocalShow (items : list string) (query : string)
| LocalThrow
| NeedsRemote (trimmedQuery lastWord : string).

Definition local_stage (query : string) : local_result :=
  if negb (Js.nonempty query) || (String.length (Js.trim query) <? 1) then Guarded
  else
    let trimmedQuery := Js.toLowerCase (Js.trim query) in
    let words := Js.split_ws trimmedQuery in
    let lastWord := Js.last_of words in
    if String.length trimmedQuery <? 2 then Guarded
    else
      match localSuggestions trimmedQuery lastWord with
      | KwArray suggestions =>
          if 0 <? List.length suggestions
          then LocalShow (Js.slice0 5 suggestions) (Js.trim query)
          else NeedsRemote trimmedQuery lastWord
      | KwObjectFunction => LocalThrow
      | KwObjectPrototype => NeedsRemote trimmedQuery lastWord
      | KwUndefined => NeedsRemote trimmedQuery lastWord
      end.

(** The [try] block: the full-query lookup and, when its response is not OK,
    the lookup of the last word. *)
Definition fallback_stage (query lastWord : string) (fetch : string -> ac_fetch)
  : ac_action :=
  match fetch lastWord with
  | AcResponse true (AcParsed (Some suggestions)) =>
      if 0 <? List.length suggestions
      then AcShow (Js.slice0 5 suggestions) (Js.trim query)
      else AcHide
  | AcResponse true (AcParsed None) => AcHide
  | AcResponse true AcMalformed => AcHide        (* caught *)
  | AcResponse false _ => AcHide
  | AcRejected => AcHide                         (* caught *)
  end.

Definition remote_stage (query trimmedQuery lastWord : string)
           (fetch : string -> ac_fetch) : list ac_step * ac_action :=
  match fetch trimmedQuery with
  | AcRejected => ([StepRemote trimmedQuery], AcHide)
  | AcResponse false _ =>
      if (2 <=? String.length lastWord) && negb (String.eqb lastWord trimmedQuery)
      then ([StepRemote trimmedQuery; StepFallback lastWord],
            fallback_stage query lastWord fetch)
      else ([StepRemote trimmedQuery], AcHide)
  | AcResponse true AcMalformed => ([StepRemote trimmedQuery], AcHide)
  | AcResponse true (AcParsed None) => ([StepRemote trimmedQuery], AcHide)
  | AcResponse true (AcParsed (Some suggestions)) =>
      if 0 <? List.length suggestions then
        let filtered := filter (relevant trimmedQuery) suggestions in
        ([StepRemote trimmedQuery],
         AcShow (if 0 <? List.length filtered then Js.slice0 5 filtered
                 else Js.slice0 5 suggestions)
                (Js.trim query))
      else ([StepRemote trimmedQuery], AcHide)
  end.

(** One whole resolution, given what each lookup settles to. *)
Definition handleAutocomplete (query : string) (fetch : string -> ac_fetch)
  : resolution :=
  match local_stage query with
  | Guarded => {| steps := []; action := AcHide |}
  | LocalShow items q => {| steps := [StepLocal]; action := AcShow items q |}
  | LocalThrow => {| steps := [StepLocal]; action := AcThrow |}
  | NeedsRemote trimmedQuery lastWord =>
      let '(remote, act) := remote_stage query trimmedQuery lastWord fetch in
      {| steps := StepLocal :: remote; action := act |}
  end.

(* ------------------------------------------------------------------ *)
(** ** The widget state *)

(** Inline [style.display] of a node. *)
Inductive display := DisplayUnset | DisplayNone | DisplayBlock.

Inductive role := User | Assistant.

(** A child of the message list: a message bubble, or the loading
    placeholder whose id is [loading-] followed by its time stamp. *)
Inductive node :=
| Bubble (type : role) (content : string)
| LoadingDots (stamp : N).

(** The closures handed to [setTimeout] by the methods modelled here. *)
Inductive callback :=
| CbAutocomplete            (* input listener, 150 ms: resolve the typed text *)
| CbSuggestions             (* input listener, 200 ms: reveal the chips *)
| CbResetPrevent            (* [hideAutocomplete], 100 ms *)
| CbAfterSend               (* [sendMessageWithQuery], 500 ms *)
| CbShowLimited (limited : list string) (title : option string)
                            (* [sendMessageWithQuery], 300 ms *)
| CbGreetingShow (limited : list string)
                            (* [loadGreeting], 500 ms *)
| CbAbort (controller : positive).
                            (* [sendMessageWithQuery], 60000 ms: [controller.abort()];
                               a controller is named by the handle of its timer *)

Record timer := { handle : positive; delay : N; run : callback }.

(** A [query] call whose [fetch] promise has not settled yet. *)
Record pending_query := {
  pq_loadingId : N;          (* the stamp of its loading placeholder *)
  pq_timeoutId : positive;   (* the handle of its 60 s timer *)
  pq_aborted : bool          (* whether its controller has aborted it *)
}.

Inductive request :=
| ReqGreet
| ReqAutocomplete (query : string)
| ReqQuery (query : string).

Record widget := {
  apiUrl : string;  (* [this.apiUrl] *)
  messages : list (role * string);  (* [this.messages]: type and content of each entry *)
  currentAutocompleteIndex : Z;
  autocompleteItems : list string;
  suggestionsShown : bool;
  usedSuggestions : list string;
  autocompleteTimeout : option positive;
  suggestionsTimeout : option positive;
  preventSuggestions : bool;
  input_value : string;  (* [#chatbot-input]: its value *)
  input_focused : bool;  (* and whether it holds the focus *)
  ac_display : display;  (* [#chatbot-autocomplete]: inline [style.display] *)
  ac_show : bool;  (* its class [show] *)
  ac_children : list string;  (* its items, each rendered from one suggestion *)
  sg_display : display;  (* [#chatbot-suggestions]: inline [style.display] *)
  sg_collapsed : bool;  (* its class [collapsed] *)
  sg_title : string;  (* the text of [.chatbot-suggestions-title] *)
  chips : list string;  (* the [.chatbot-suggestion-chip] nodes, by text *)
  chat : list node;  (* children of [#chatbot-messages] *)
  timers : list timer;  (* callbacks armed by [setTimeout] and not yet run, styling apart *)
  next_timer : positive;  (* the next timer handle *)
  requests : list request;  (* calls issued through [fetch], oldest first *)
  inflight : list pending_query  (* [query] calls not settled yet *)
}.

(** Assignment to one field. *)
Definition set_messages (v : list (role * string)) (w : widget) : widget :=
  {| apiUrl := apiUrl w; messages := v; currentAutocompleteIndex := currentAutocompleteIndex w;
     autocompleteItems := autocompleteItems w; suggestionsShown := suggestionsShown w;
     usedSuggestions := usedSuggestions w; autocompleteTimeout := autocompleteTimeout w;
     suggestionsTimeout := suggestionsTimeout w; preventSuggestions := preventSuggestions w;
     input_value := input_value w; input_focused := input_focused w; ac_display := ac_display w;
     ac_show := ac_show w; ac_children := ac_children w; sg_display := sg_display w;
     sg_collapsed := sg_collapsed w; sg_title := sg_title w; chips := chips w; chat := chat w;
     timers := timers w; next_timer := next_timer w; requests := requests w; inflight := inflight w
     |}.

Definition set_currentAutocompleteIndex (v : Z) (w : widget) : widget :=
  {| apiUrl := apiUrl w; messages := messages w; currentAutocompleteIndex := v;
     autocompleteItems := autocompleteItems w; suggestionsShown := suggestionsShown w;
     usedSuggestions := usedSuggestions w; autocompleteTimeout := autocompleteTimeout w;
     suggestionsTimeout := suggestionsTimeout w; preventSuggestions := preventSuggestions w;
     input_value := input_value w; input_focused := input_focused w; ac_display := ac_display w;
     ac_show := ac_show w; ac_children := ac_children w; sg_display := sg_display w;
     sg_collapsed := sg_collapsed w; sg_title := sg_title w; chips := chips w; chat := chat w;
     timers := timers w; next_timer := next_timer w; requests := requests w; inflight := inflight w
     |}.

Definition set_autocompleteItems (v : list string) (w : widget) : widget :=
  {| apiUrl := apiUrl w; messages := messages w;
     currentAutocompleteIndex := currentAutocompleteIndex w; autocompleteItems := v;
     suggestionsShown := suggestionsShown w; usedSuggestions := usedSuggestions w;
     autocompleteTimeout := autocompleteTimeout w; suggestionsTimeout := suggestionsTimeout w;
     preventSuggestions := preventSuggestions w; input_value := input_value w;
     input_focused := input_focused w; ac_display := ac_display w; ac_show := ac_show w;
     ac_children := ac_children w; sg_display := sg_display w; sg_collapsed := sg_collapsed w;
     sg_title := sg_title w; chips := chips w; chat := chat w; timers := timers w;
     next_timer := next_timer w; requests := requests w; inflight := inflight w |}.

Definition set_suggestionsShown (v : bool) (w : widget) : widget :=
  {| apiUrl := apiUrl w; messages := messages w;
     currentAutocompleteIndex := currentAutocompleteIndex w;
     autocompleteItems := autocompleteItems w; suggestionsShown := v;
     usedSuggestions := usedSuggestions w; autocompleteTimeout := autocompleteTimeout w;
     suggestionsTimeout := suggestionsTimeout w; preventSuggestions := preventSuggestions w;
     input_value := input_value w; input_focused := input_focused w; ac_display := ac_display w;
     ac_show := ac_show w; ac_children := ac_children w; sg_display := sg_display w;
     sg_collapsed := sg_collapsed w; sg_title := sg_title w; chips := chips w; chat := chat w;
     timers := timers w; next_timer := next_timer w; requests := requests w; inflight := inflight w
     |}.

Definition set_usedSuggestions (v : list string) (w : widget) : widget :=
  {| apiUrl := apiUrl w; messages := messages w;
     currentAutocompleteIndex := currentAutocompleteIndex w;
     autocompleteItems := autocompleteItems w; suggestionsShown := suggestionsShown w;
     usedSuggestions := v; autocompleteTimeout := autocompleteTimeout w;
     suggestionsTimeout := suggestionsTimeout w; preventSuggestions := preventSuggestions w;
     input_value := input_value w; input_focused := input_focused w; ac_display := ac_display w;
     ac_show := ac_show w; ac_children := ac_children w; sg_display := sg_display w;
     sg_collapsed := sg_collapsed w; sg_title := sg_title w; chips := chips w; chat := chat w;
     timers := timers w; next_timer := next_timer w; requests := requests w; inflight := inflight w
     |}.

Definition set_autocompleteTimeout (v : option positive) (w : widget) : widget :=
  {| apiUrl := apiUrl w; messages := messages w;
     currentAutocompleteIndex := currentAutocompleteIndex w;
     autocompleteItems := autocompleteItems w; suggestionsShown := suggestionsShown w;
     usedSuggestions := usedSuggestions w; autocompleteTimeout := v;
     suggestionsTimeout := suggestionsTimeout w; preventSuggestions := preventSuggestions w;
     input_value := input_value w; input_focused := input_focused w; ac_display := ac_display w;
     ac_show := ac_show w; ac_children := ac_children w; sg_display := sg_display w;
     sg_collapsed := sg_collapsed w; sg_title := sg_title w; chips := chips w; chat := chat w;
     timers := timers w; next_timer := next_timer w; requests := requests w; inflight := inflight w
     |}.

Definition set_suggestionsTimeout (v : option positive) (w : widget) : widget :=
  {| apiUrl := apiUrl w; messages := messages w;
     currentAutocompleteIndex := currentAutocompleteIndex w;
     autocompleteItems := autocompleteItems w; suggestionsShown := suggestionsShown w;
     usedSuggestions := usedSuggestions w; autocompleteTimeout := autocompleteTimeout w;
     suggestionsTimeout := v; preventSuggestions := preventSuggestions w;
     input_value := input_value w; input_focused := input_focused w; ac_display := ac_display w;
     ac_show := ac_show w; ac_children := ac_children w; sg_display := sg_display w;
     sg_collapsed := sg_collapsed w; sg_title := sg_title w; chips := chips w; chat := chat w;
     timers := timers w; next_timer := next_timer w; requests := requests w; inflight := inflight w
     |}.

Definition set_preventSuggestions (v : bool) (w : widget) : widget :=
  {| apiUrl := apiUrl w; messages := messages w;
     currentAutocompleteIndex := currentAutocompleteIndex w;
     autocompleteItems := autocompleteItems w; suggestionsShown := suggestionsShown w;
     usedSuggestions := usedSuggestions w; autocompleteTimeout := autocompleteTimeout w;
     suggestionsTimeout := suggestionsTimeout w; preventSuggestions := v;
     input_value := input_value w; input_focused := input_focused w; ac_display := ac_display w;
     ac_show := ac_show w; ac_children := ac_children w; sg_display := sg_display w;
     sg_collapsed := sg_collapsed w; sg_title := sg_title w; chips := chips w; chat := chat w;
     timers := timers w; next_timer := next_timer w; requests := requests w; inflight := inflight w
     |}.

Definition set_input_value (v : string) (w : widget) : widget :=
  {| apiUrl := apiUrl w; messages := messages w;
     currentAutocompleteIndex := currentAutocompleteIndex w;
     autocompleteItems := autocompleteItems w; suggestionsShown := suggestionsShown w;
     usedSuggestions := usedSuggestions w; autocompleteTimeout := autocompleteTimeout w;
     suggestionsTimeout := suggestionsTimeout w; preventSuggestions := preventSuggestions w;
     input_value := v; input_focused := input_focused w; ac_display := ac_display w;
     ac_show := ac_show w; ac_children := ac_children w; sg_display := sg_display w;
     sg_collapsed := sg_collapsed w; sg_title := sg_title w; chips := chips w; chat := chat w;
     timers := timers w; next_timer := next_timer w; requests := requests w; inflight := inflight w
     |}.

Definition set_input_focused (v : bool) (w : widget) : widget :=
  {| apiUrl := apiUrl w; messages := messages w;
     currentAutocompleteIndex := currentAutocompleteIndex w;
     autocompleteItems := autocompleteItems w; suggestionsShown := suggestionsShown w;
     usedSuggestions := usedSuggestions w; autocompleteTimeout := autocompleteTimeout w;
     suggestionsTimeout := suggestionsTimeout w; preventSuggestions := preventSuggestions w;
     input_value := input_value w; input_focused := v; ac_display := ac_display w;
     ac_show := ac_show w; ac_children := ac_children w; sg_display := sg_display w;
     sg_collapsed := sg_collapsed w; sg_title := sg_title w; chips := chips w; chat := chat w;
     timers := timers w; next_timer := next_timer w; requests := requests w; inflight := inflight w
     |}.

Definition set_ac_display (v : display) (w : widget) : widget :=
  {| apiUrl := apiUrl w; messages := messages w;
     currentAutocompleteIndex := currentAutocompleteIndex w;
     autocompleteItems := autocompleteItems w; suggestionsShown := suggestionsShown w;
     usedSuggestions := usedSuggestions w; autocompleteTimeout := autocompleteTimeout w;
     suggestionsTimeout := suggestionsTimeout w; preventSuggestions := preventSuggestions w;
     input_value := input_value w; input_focused := input_focused w; ac_display := v;
     ac_show := ac_show w; ac_children := ac_children w; sg_display := sg_display w;
     sg_collapsed := sg_collapsed w; sg_title := sg_title w; chips := chips w; chat := chat w;
     timers := timers w; next_timer := next_timer w; requests := requests w; inflight := inflight w
     |}.

Definition set_ac_show (v : bool) (w : widget) : widget :=
  {| apiUrl := apiUrl w; messages := messages w;
     currentAutocompleteIndex := currentAutocompleteIndex w;
     autocompleteItems := autocompleteItems w; suggestionsShown := suggestionsShown w;
     usedSuggestions := usedSuggestions w; autocompleteTimeout := autocompleteTimeout w;
     suggestionsTimeout := suggestionsTimeout w; preventSuggestions := preventSuggestions w;
     input_value := input_value w; input_focused := input_focused w; ac_display := ac_display w;
     ac_show := v; ac_children := ac_children w; sg_display := sg_display w;
     sg_collapsed := sg_collapsed w; sg_title := sg_title w; chips := chips w; chat := chat w;
     timers := timers w; next_timer := next_timer w; requests := requests w; inflight := inflight w
     |}.

Definition set_ac_children (v : list string) (w : widget) : widget :=
  {| apiUrl := apiUrl w; messages := messages w;
     currentAutocompleteIndex := currentAutocompleteIndex w;
     autocompleteItems := autocompleteItems w; suggestionsShown := suggestionsShown w;
     usedSuggestions := usedSuggestions w; autocompleteTimeout := autocompleteTimeout w;
     suggestionsTimeout := suggestionsTimeout w; preventSuggestions := preventSuggestions w;
     input_value := input_value w; input_focused := input_focused w; ac_display := ac_display w;
     ac_show := ac_show w; ac_children := v; sg_display := sg_display w;
     sg_collapsed := sg_collapsed w; sg_title := sg_title w; chips := chips w; chat := chat w;
     timers := timers w; next_timer := next_timer w; requests := requests w; inflight := inflight w
     |}.

Definition set_sg_display (v : display) (w : widget) : widget :=
  {| apiUrl := apiUrl w; messages := messages w;
     currentAutocompleteIndex := currentAutocompleteIndex w;
     autocompleteItems := autocompleteItems w; suggestionsShown := suggestionsShown w;
     usedSuggestions := usedSuggestions w; autocompleteTimeout := autocompleteTimeout w;
     suggestionsTimeout := suggestionsTimeout w; preventSuggestions := preventSuggestions w;
     input_value := input_value w; input_focused := input_focused w; ac_display := ac_display w;
     ac_show := ac_show w; ac_children := ac_children w; sg_display := v;
     sg_collapsed := sg_collapsed w; sg_title := sg_title w; chips := chips w; chat := chat w;
     timers := timers w; next_timer := next_timer w; requests := requests w; inflight := inflight w
     |}.

Definition set_sg_collapsed (v : bool) (w : widget) : widget :=
  {| apiUrl := apiUrl w; messages := messages w;
     currentAutocompleteIndex := currentAutocompleteIndex w;
     autocompleteItems := autocompleteItems w; suggestionsShown := suggestionsShown w;
     usedSuggestions := usedSuggestions w; autocompleteTimeout := autocompleteTimeout w;
     suggestionsTimeout := suggestionsTimeout w; preventSuggestions := preventSuggestions w;
     input_value := input_value w; input_focused := input_focused w; ac_display := ac_display w;
     ac_show := ac_show w; ac_children := ac_children w; sg_display := sg_display w;
     sg_collapsed := v; sg_title := sg_title w; chips := chips w; chat := chat w;
     timers := timers w; next_timer := next_timer w; requests := requests w; inflight := inflight w
     |}.

Definition set_sg_title (v : string) (w : widget) : widget :=
  {| apiUrl := apiUrl w; messages := messages w;
     currentAutocompleteIndex := currentAutocompleteIndex w;
     autocompleteItems := autocompleteItems w; suggestionsShown := suggestionsShown w;
     usedSuggestions := usedSuggestions w; autocompleteTimeout := autocompleteTimeout w;
     suggestionsTimeout := suggestionsTimeout w; preventSuggestions := preventSuggestions w;
     input_value := input_value w; input_focused := input_focused w; ac_display := ac_display w;
     ac_show := ac_show w; ac_children := ac_children w; sg_display := sg_display w;
     sg_collapsed := sg_collapsed w; sg_title := v; chips := chips w; chat := chat w;
     timers := timers w; next_timer := next_timer w; requests := requests w; inflight := inflight w
     |}.

Definition set_chips (v : list string) (w : widget) : widget :=
  {| apiUrl := apiUrl w; messages := messages w;
     currentAutocompleteIndex := currentAutocompleteIndex w;
     autocompleteItems := autocompleteItems w; suggestionsShown := suggestionsShown w;
     usedSuggestions := usedSuggestions w; autocompleteTimeout := autocompleteTimeout w;
     suggestionsTimeout := suggestionsTimeout w; preventSuggestions := preventSuggestions w;
     input_value := input_value w; input_focused := input_focused w; ac_display := ac_display w;
     ac_show := ac_show w; ac_children := ac_children w; sg_display := sg_display w;
     sg_collapsed := sg_collapsed w; sg_title := sg_title w; chips := v; chat := chat w;
     timers := timers w; next_timer := next_timer w; requests := requests w; inflight := inflight w
     |}.

Definition set_chat (v : list node) (w : widget) : widget :=
  {| apiUrl := apiUrl w; messages := messages w;
     currentAutocompleteIndex := currentAutocompleteIndex w;
     autocompleteItems := autocompleteItems w; suggestionsShown := suggestionsShown w;
     usedSuggestions := usedSuggestions w; autocompleteTimeout := autocompleteTimeout w;
     suggestionsTimeout := suggestionsTimeout w; preventSuggestions := preventSuggestions w;
     input_value := input_value w; input_focused := input_focused w; ac_display := ac_display w;
     ac_show := ac_show w; ac_children := ac_children w; sg_display := sg_display w;
     sg_collapsed := sg_collapsed w; sg_title := sg_title w; chips := chips w; chat := v;
     timers := timers w; next_timer := next_timer w; requests := requests w; inflight := inflight w
     |}.

Definition set_timers (v : list timer) (w : widget) : widget :=
  {| apiUrl := apiUrl w; messages := messages w;
     currentAutocompleteIndex := currentAutocompleteIndex w;
     autocompleteItems := autocompleteItems w; suggestionsShown := suggestionsShown w;
     usedSuggestions := usedSuggestions w; autocompleteTimeout := autocompleteTimeout w;
     suggestionsTimeout := suggestionsTimeout w; preventSuggestions := preventSuggestions w;
     input_value := input_value w; input_focused := input_focused w; ac_display := ac_display w;
     ac_show := ac_show w; ac_children := ac_children w; sg_display := sg_display w;
     sg_collapsed := sg_collapsed w; sg_title := sg_title w; chips := chips w; chat := chat w;
     timers := v; next_timer := next_timer w; requests := requests w; inflight := inflight w |}.

Definition set_next_timer (v : positive) (w : widget) : widget :=
  {| apiUrl := apiUrl w; messages := messages w;
     currentAutocompleteIndex := currentAutocompleteIndex w;
     autocompleteItems := autocompleteItems w; suggestionsShown := suggestionsShown w;
     usedSuggestions := usedSuggestions w; autocompleteTimeout := autocompleteTimeout w;
     suggestionsTimeout := suggestionsTimeout w; preventSuggestions := preventSuggestions w;
     input_value := input_value w; input_focused := input_focused w; ac_display := ac_display w;
     ac_show := ac_show w; ac_children := ac_children w; sg_display := sg_display w;
     sg_collapsed := sg_collapsed w; sg_title := sg_title w; chips := chips w; chat := chat w;
     timers := timers w; next_timer := v; requests := requests w; inflight := inflight w |}.

Definition set_requests (v : list request) (w : widget) : widget :=
  {| apiUrl := apiUrl w; messages := messages w;
     currentAutocompleteIndex := currentAutocompleteIndex w;
     autocompleteItems := autocompleteItems w; suggestionsShown := suggestionsShown w;
     usedSuggestions := usedSuggestions w; autocompleteTimeout := autocompleteTimeout w;
     suggestionsTimeout := suggestionsTimeout w; preventSuggestions := preventSuggestions w;
     input_value := input_value w; input_focused := input_focused w; ac_display := ac_display w;
     ac_show := ac_show w; ac_children := ac_children w; sg_display := sg_display w;
     sg_collapsed := sg_collapsed w; sg_title := sg_title w; chips := chips w; chat := chat w;
     timers := timers w; next_timer := next_timer w; requests := v; inflight := inflight w |}.

Definition set_inflight (v : list pending_query) (w : widget) : widget :=
  {| apiUrl := apiUrl w; messages := messages w;
     currentAutocompleteIndex := currentAutocompleteIndex w;
     autocompleteItems := autocompleteItems w; suggestionsShown := suggestionsShown w;
     usedSuggestions := usedSuggestions w; autocompleteTimeout := autocompleteTimeout w;
     suggestionsTimeout := suggestionsTimeout w; preventSuggestions := preventSuggestions w;
     input_value := input_value w; input_focused := input_focused w; ac_display := ac_display w;
     ac_show := ac_show w; ac_children := ac_children w; sg_display := sg_display w;
     sg_collapsed := sg_collapsed w; sg_title := sg_title w; chips := chips w; chat := chat w;
     timers := timers w; next_timer := next_timer w; requests := requests w; inflight := v |}.

(** The widget as the constructor (lines 60-74) and the markup of
    [createWidget] (lines 597-619) leave it. *)
Definition initial (url : string) : widget :=
  {| apiUrl := url; messages := []; currentAutocompleteIndex := (-1)%Z;
     autocompleteItems := []; suggestionsShown := false; usedSuggestions := [];
     autocompleteTimeout := None; suggestionsTimeout := None;
     preventSuggestions := false;
     input_value := ""; input_focused := false;
     ac_display := DisplayUnset; ac_show := false; ac_children := [];
     sg_display := DisplayNone; sg_collapsed := false;
     sg_title := "Suggested Questions"; chips := [];
     chat := []; timers := []; next_timer := 1%positive; requests := [];
     inflight := [] |}.

(** Whether each help surface is on screen.  The dropdown is laid out by its
    inline display and, while that is unset, by its class [show]; the chip
    surface by its inline display, which the markup sets to [none]. *)
Definition ac_visible (w : widget) : bool :=
  match ac_display w with
  | DisplayBlock => true
  | DisplayNone => false
  | DisplayUnset => ac_show w
  end.

Definition sg_visible (w : widget) : bool :=
  match sg_display w with
  | DisplayNone => false
  | _ => true
  end.

(* ------------------------------------------------------------------ *)
(** ** Timers *)

Definition setTimeout (cb : callback) (ms : N) (w : widget) : positive * widget :=
  let h := next_timer w in
  (h, set_next_timer (Pos.succ h)
        (set_timers (timers w ++ [{| handle := h; delay := ms; run := cb |}]) w)).

Definition clearTimeout (h : positive) (w : widget) : widget :=
  set_timers (filter (fun t => negb (Pos.eqb (handle t) h)) (timers w)) w.

Definition pending (h : positive) (w : widget) : bool :=
  existsb (fun t => Pos.eqb (handle t) h) (timers w).

(** [if (this.autocompleteTimeout) { clearTimeout(...); ... = null; }] *)
Definition clear_autocompleteTimeout (w : widget) : widget :=
  match autocompleteTimeout w with
  | Some h => set_autocompleteTimeout None (clearTimeout h w)
  | None => w
  end.

Definition clear_suggestionsTimeout (w : widget) : widget :=
  match suggestionsTimeout w with
  | Some h => set_suggestionsTimeout None (clearTimeout h w)
  | None => w
  end.

(* ------------------------------------------------------------------ *)
(** ** The help-surface coordinator *)

(** [!input.value || input.value.trim().length === 0] *)
Definition input_blank (w : widget) : bool :=
  negb (Js.nonempty (input_value w))
  || (String.length (Js.trim (input_value w)) =? 0).

(** Lines 1913-1936. *)
Definition hideAutocomplete (w : widget) : widget :=
  let w := set_ac_show false w in
  let w := set_ac_display DisplayNone w in
  let w := set_currentAutocompleteIndex (-1)%Z w in
  let w := clear_autocompleteTimeout w in
  if input_blank w then snd (setTimeout CbResetPrevent 100 w) else w.

(** Lines 2862-2885. *)
Definition hideSuggestions (w : widget) : widget :=
  let w := clear_suggestionsTimeout w in
  let w := set_sg_display DisplayNone w in
  let w := set_sg_collapsed false w in
  let w := set_chips [] w in
  set_suggestionsShown false w.

(** Lines 1788-1879. *)
Definition showAutocomplete (suggestions : list string) (query : string)
           (w : widget) : widget :=
  let w := hideSuggestions w in
  let w := clear_suggestionsTimeout w in
  let w := set_preventSuggestions true w in
  let w := set_sg_display DisplayNone w in
  let w := set_ac_children [] w in
  let w := set_autocompleteItems suggestions w in
  let w := set_currentAutocompleteIndex (-1)%Z w in
  let w := set_ac_display DisplayBlock w in
  (* one item per suggestion, its text marked up by [highlightMatch] *)
  let w := set_ac_children suggestions w in
  set_ac_show true w.

(** Lines 2739-2860.  The test of lines 2775-2781 reads the chips left in
    the document, which the lines before it have all removed. *)
Definition showSuggestions (suggestions : list string) (title : option string)
           (w : widget) : widget :=
  let w := hideAutocomplete w in
  let w := clear_autocompleteTimeout w in
  let w := set_preventSuggestions false w in
  let w := set_ac_show false (set_ac_display DisplayNone w) in
  (* every chip leaves the document, every container is hidden *)
  let w := set_chips [] w in
  let w := set_chips [] (set_sg_collapsed false (set_sg_display DisplayNone w)) in
  if suggestionsShown w && (0 <? List.length suggestions)
     && (0 <? List.length (chips w))
  then w
  else
    let w := set_sg_collapsed false w in
    let w := match title with
             | Some t => if Js.nonempty t then set_sg_title t w else w
             | None => w
             end in
    let w := set_chips [] w in
    if List.length suggestions =? 0 then
      set_suggestionsShown false (set_sg_display DisplayNone w)
    else
      let final := finalSuggestions (usedSuggestions w) suggestions in
      let w := set_chips final w in
      set_suggestionsShown true (set_sg_display DisplayBlock w).

(** Lines 1938-1962. *)
Definition showSuggestionsIfAvailable (w : widget) : widget :=
  if 0 <? String.length (Js.trim (input_value w)) then w
  else
    let toShow := suggestionsToShow (usedSuggestions w) in
    if 0 <? List.length toShow then showSuggestions toShow None w else w.

(** Lines 1964-1976. *)
Definition navigateAutocomplete (direction : Z) (w : widget) : widget :=
  if List.length (autocompleteItems w) =? 0 then w
  else
    let n := Z.of_nat (List.length (autocompleteItems w)) in
    let i := (currentAutocompleteIndex w + direction)%Z in
    let i := if (i <? 0)%Z then (n - 1)%Z else if (n <=? i)%Z then 0%Z else i in
    set_currentAutocompleteIndex i w.

(** Lines 1557-1562. *)
Definition toggleSuggestions (w : widget) : widget :=
  set_sg_collapsed (negb (sg_collapsed w)) w.

(* ------------------------------------------------------------------ *)
(** ** The input element and its listeners *)

(** The dropdown follows a resolution: the part of [handleAutocomplete] up
    to the first [await] acts at once, the rest when the lookups settle. *)
Definition apply_action (a : ac_action) (w : widget) : widget :=
  match a with
  | AcShow items query => showAutocomplete items query w
  | AcHide => hideAutocomplete w
  | AcThrow => w
  end.

Definition log_request (r : request) (w : widget) : widget :=
  set_requests (requests w ++ [r]) w.

Definition handleAutocomplete_begin (query : string) (w : widget) : widget :=
  match local_stage query with
  | Guarded => hideAutocomplete w
  | LocalShow items q => showAutocomplete items q w
  | LocalThrow => w
  | NeedsRemote trimmedQuery _ => log_request (ReqAutocomplete trimmedQuery) w
  end.

Definition handleAutocomplete_settle (query : string) (fetch : string -> ac_fetch)
           (w : widget) : widget :=
  match local_stage query with
  | NeedsRemote trimmedQuery lastWord =>
      let '(remote, act) := remote_stage query trimmedQuery lastWord fetch in
      let w := match remote with
               | [_; StepFallback q] => log_request (ReqAutocomplete q) w
               | _ => w
               end in
      apply_action act w
  | _ => w
  end.

(** The listener of the [input] event (typing, or a dispatched event),
    lines 1010-1069. *)
Definition on_input (w : widget) : widget :=
  let w := clear_autocompleteTimeout w in
  let w := clear_suggestionsTimeout w in
  let value := input_value w in
  if Js.nonempty value && (1 <=? String.length (Js.trim value)) then
    let w := hideSuggestions w in
    let w := set_preventSuggestions true w in
    let '(h, w) := setTimeout CbAutocomplete 150 w in
    set_autocompleteTimeout (Some h) w
  else
    let w := hideAutocomplete w in
    let w := set_preventSuggestions false w in
    let '(h, w) := setTimeout CbSuggestions 200 w in
    set_suggestionsTimeout (Some h) w.

(** [setInputValue] (lines 430-441): assign the value, then dispatch an
    [input] event. *)
Definition setInputValue (value : string) (w : widget) : widget :=
  on_input (set_input_value value w).

(** The listener of the [focus] event, lines 1072-1086. *)
Definition on_focus (w : widget) : widget :=
  let w := set_input_focused true w in
  if Js.nonempty (input_value w) && (2 <=? String.length (input_value w))
  then handleAutocomplete_begin (input_value w) w
  else w.

(** [input.focus()].  An input that holds the focus already stays as it
    is; one that does not takes it, and the [focus] event is dispatched
    before the call returns, so the listener runs inside the method that
    asked for the focus. *)
Definition focus (w : widget) : widget :=
  if input_focused w then w else on_focus w.

(** Lines 1990-1999. *)
Definition selectAutocompleteItem (index : Z) (w : widget) : widget :=
  if ((0 <=? index)%Z && (index <? Z.of_nat (List.length (autocompleteItems w)))%Z)
  then
    match nth_error (autocompleteItems w) (Z.to_nat index) with
    | Some item =>
        let w := setInputValue item w in
        let w := hideAutocomplete w in
        focus w
    | None => w
    end
  else w.

(** The click listener each chip gets in [showSuggestions] (lines
    2834-2852); it stops the event, so the listener of the container (lines
    1120-1137), which does the same, does not run after it. *)
Definition on_chip_click (suggestion : string) (w : widget) : widget :=
  let w := if negb (Js.arr_includes (usedSuggestions w) suggestion)
           then set_usedSuggestions (usedSuggestions w ++ [suggestion]) w
           else w in
  let w := setInputValue suggestion w in
  let w := focus w in
  hideSuggestions w.

(** The click listener of an entry of the FAQ list (lines 3668-3681). *)
Definition on_faq_click (faq : string) (w : widget) : widget :=
  focus (setInputValue faq w).

(* ------------------------------------------------------------------ *)
(** ** The conversation *)

(** [addMessage] (lines 2241-2474): a bubble in the document and an entry
    of [this.messages]. *)
Definition addMessage (type : role) (content : string) (w : widget) : widget :=
  let w := set_chat (chat w ++ [Bubble type content]) w in
  set_messages (messages w ++ [(type, content)]) w.

(** [addLoadingMessage] (lines 2705-2730) at time [now]; the id it returns
    is the stamp. *)
Definition addLoadingMessage (now : N) (w : widget) : widget :=
  set_chat (chat w ++ [LoadingDots now]) w.

(** [removeMessage(loadingId)] (lines 2732-2737): the first node carrying
    the id goes. *)
Fixpoint remove_loading (loadingId : N) (l : list node) : list node :=
  match l with
  | [] => []
  | LoadingDots stamp :: r =>
      if (stamp =? loadingId)%N then r
      else LoadingDots stamp :: remove_loading loadingId r
  | n :: r => n :: remove_loading loadingId r
  end.

Definition removeMessage (loadingId : N) (w : widget) : widget :=
  set_chat (remove_loading loadingId (chat w)) w.

(** Thrown values: [name] and [message] of the error object. *)
Record js_error := { name : string; message : string }.

(** What [controller.abort()] makes the pending [fetch] reject with: a
    [DOMException] named [AbortError] whose message is the browser's. *)
Definition abortError (browser_text : string) : js_error :=
  {| name := "AbortError"; message := browser_text |}.

(** The payload of the [query] operation; absent, [null] and [""] count as
    [None] or as a falsy string. *)
Record query_data := {
  q_answer : option string;
  q_error : option string;
  q_suggestions : option (list string);
  q_follow_up_message : option string
}.

Inductive query_body :=
| QMalformed (syntax_error : string)        (* [response.json()] rejects *)
| QParsed (data : query_data).

Inductive query_outcome :=
| QRejected (e : js_error)                  (* [fetch] rejects: no connection, or aborted *)
| QResponse (ok : bool) (status : nat) (body : query_body).

(** [a || b] on optional strings. *)
Definition truthy (o : option string) : option string :=
  match o with
  | Some s => if Js.nonempty s then Some s else None
  | None => None
  end.

Definition or_else (o : option string) (d : string) : string :=
  match truthy o with Some s => s | None => d end.

(** The message chosen in the [catch] block of [sendMessageWithQuery]
    (lines 2182-2199). *)
Definition errorMessage (url : string) (error : js_error) : string :=
  if Js.includes (message error) "Failed to fetch"
     || Js.includes (message error) "NetworkError"
     || String.eqb (name error) "TypeError"
  then connectivityChecklist url
  else if Js.includes (message error) "timeout"
          || String.eqb (name error) "TimeoutError"
  then timeoutText
  else message error.

Definition catch_block (loadingId : N) (error : js_error) (w : widget) : widget :=
  let w := removeMessage loadingId w in
  addMessage Assistant
    ("Sorry, I encountered an error: " ++ errorMessage (apiUrl w) error) w.

(** The text shown for a delivered payload without an [error] field (lines
    2119-2145). *)
Definition deliveredAnswer (data : query_data) : string :=
  let answer := or_else (q_answer data) noAnswerProvided in
  if hasPersonalInfo answer then personalInfoRefusal else answer.

(** [sendMessageWithQuery] up to [await fetch] (lines 2043-2093), called
    with the input element; [now] is [Date.now()] when
    the loading placeholder is made. *)
Definition sendMessageWithQuery (query : string) (now : N) (w : widget) : widget :=
  let w := addMessage User query w in
  let w := set_preventSuggestions true w in
  let w := hideAutocomplete w in
  let w := hideSuggestions w in
  let w := set_input_value "" w in
  let w := focus w in
  let w := snd (setTimeout CbAfterSend 500 w) in
  let w := addLoadingMessage now w in
  let controller := next_timer w in
  let armed := setTimeout (CbAbort controller) 60000 w in
  let w := set_inflight
             (inflight (snd armed)
              ++ [{| pq_loadingId := now; pq_timeoutId := fst armed; pq_aborted := false |}])
             (snd armed) in
  log_request (ReqQuery query) w.

(** The rest of [sendMessageWithQuery] (lines 2095-2199), once the call [q]
    has settled: a
    response first clears the 60 s timer, a rejection goes straight to
    the [catch] block. *)
Definition sendMessageWithQuery_settle (q : pending_query) (o : query_outcome)
           (w : widget) : widget :=
  let loadingId := pq_loadingId q in
  let w := match o with
           | QResponse _ _ _ => clearTimeout (pq_timeoutId q) w
           | QRejected _ => w
           end in
  match o with
  | QRejected error => catch_block loadingId error w
  | QResponse false status body =>
      let fallback := "HTTP error! status: " ++ NilZero.string_of_uint (Nat.to_uint status) in
      let text :=
        match body with
        | QParsed errorData =>
            or_else (q_error errorData) (or_else (q_answer errorData) fallback)
        | QMalformed _ => fallback
        end in
      catch_block loadingId {| name := "Error"; message := text |} w
  | QResponse true _ (QMalformed syntax_error) =>
      catch_block loadingId {| name := "SyntaxError"; message := syntax_error |} w
  | QResponse true _ (QParsed data) =>
      let w := removeMessage loadingId w in
      match truthy (q_error data) with
      | Some err => addMessage Assistant ("Error: " ++ or_else (q_answer data) err) w
      | None =>
          let w := addMessage Assistant (deliveredAnswer data) w in
          match q_suggestions data with
          | Some suggestions =>
              if 0 <? List.length suggestions then
                let limited := limitedSuggestions (usedSuggestions w) suggestions in
                if 0 <? List.length limited
                then snd (setTimeout (CbShowLimited limited (q_follow_up_message data)) 300 w)
                else w
              else w
          | None => w
          end
      end
  end.

(** Lines 2001-2041. *)
Definition sendMessage (now : N) (w : widget) : widget :=
  let query := Js.trim (input_value w) in
  if negb (Js.nonempty query) then
    let w := focus w in
    addMessage Assistant emptyQueryAdvice w
  else sendMessageWithQuery query now w.

(** The payload of [greet] and what the call settles to. *)
Record greet_data := {
  g_message : option string;
  g_has_data : bool;
  g_suggestions : option (list string)
}.

Inductive greet_outcome :=
| GreetRejected
| GreetResponse (ok : bool) (body : option greet_data). (* [None]: not JSON *)

(** [loadGreeting] (lines 1564-1637) up to [await fetch], and the rest. *)
Definition loadGreeting (w : widget) : widget := log_request ReqGreet w.

Definition loadGreeting_settle (o : greet_outcome) (w : widget) : widget :=
  match o with
  | GreetResponse true (Some data) =>
      let w := match truthy (g_message data) with
               | Some m => addMessage Assistant m w
               | None => w
               end in
      match g_has_data data, g_suggestions data with
      | true, Some suggestions =>
          if 0 <? List.length suggestions then
            let limited := limitedSuggestions (usedSuggestions w) suggestions in
            let w := hideSuggestions w in
            if negb (suggestionsShown w) && (0 <? List.length limited)
            then snd (setTimeout (CbGreetingShow limited) 500 w)
            else w
          else hideSuggestions w
      | _, _ => hideSuggestions w
      end
  | _ =>
      let w := addMessage Assistant defaultGreeting w in
      showSuggestions defaultSuggestions None w
  end.

(* ------------------------------------------------------------------ *)
(** ** Keyboard, timers and the event loop *)

Inductive key := Enter | ArrowDown | ArrowUp | Tab | Escape | OtherKey.

(** The [keydown] listener of the input (lines 971-1007). *)
Definition on_keydown (k : key) (shiftKey : bool) (now : N) (w : widget) : widget :=
  let has_items := 0 <? List.length (autocompleteItems w) in
  match k with
  | Enter =>
      if negb shiftKey then
        if (0 <=? currentAutocompleteIndex w)%Z && has_items
        then selectAutocompleteItem (currentAutocompleteIndex w) w
        else if Js.nonempty (Js.trim (input_value w)) then sendMessage now w
        else w
      else w
  | ArrowDown => if has_items then navigateAutocomplete 1 w else w
  | ArrowUp => if has_items then navigateAutocomplete (-1) w else w
  | Tab =>
      if has_items then
        if (0 <=? currentAutocompleteIndex w)%Z
        then selectAutocompleteItem (currentAutocompleteIndex w) w
        else selectAutocompleteItem 0 w
      else w
  | Escape => hideAutocomplete w
  | OtherKey => w
  end.

(** What a timer does when it fires. *)
Definition run_callback (cb : callback) (w : widget) : widget :=
  match cb with
  | CbAutocomplete =>
      let currentValue := input_value w in
      if Js.nonempty currentValue && (1 <=? String.length (Js.trim currentValue))
      then handleAutocomplete_begin currentValue (hideSuggestions w)
      else w
  | CbSuggestions =>
      if input_blank w then
        if negb (preventSuggestions w)
        then showSuggestionsIfAvailable (hideAutocomplete w)
        else w
      else w
  | CbResetPrevent => set_preventSuggestions false w
  | CbAfterSend =>
      let w := set_preventSuggestions false w in
      if input_blank w then showSuggestionsIfAvailable (hideAutocomplete w) else w
  | CbShowLimited limited title =>
      if input_blank w then showSuggestions limited title (hideAutocomplete w) else w
  | CbGreetingShow limited => showSuggestions limited None w
  | CbAbort controller =>
      set_inflight
        (map (fun q => if Pos.eqb (pq_timeoutId q) controller
                       then {| pq_loadingId := pq_loadingId q;
                               pq_timeoutId := pq_timeoutId q; pq_aborted := true |}
                       else q)
             (inflight w)) w
  end.

(** Removing the timer that fires from the queue. *)
Fixpoint take_timer (h : positive) (l : list timer) : option (timer * list timer) :=
  match l with
  | [] => None
  | t :: r =>
      if Pos.eqb (handle t) h then Some (t, r)
      else match take_timer h r with
           | Some (t', r') => Some (t', t :: r')
           | None => None
           end
  end.

(** A pending call that its controller has aborted can only reject, and
    with the [AbortError]. *)
Definition settles_as (q : pending_query) (o : query_outcome) : bool :=
  if pq_aborted q then
    match o with
    | QRejected e => String.eqb (name e) "AbortError"
    | QResponse _ _ _ => false
    end
  else true.

(** Everything that can happen to the widget between two turns of the
    event loop.  A settled autocomplete lookup or greeting may belong to
    any earlier call, so its query and its outcome are arbitrary; a settled
    query is one of the pending ones, named by the handle of its timer. *)
Inductive event :=
| EvInput (value : string)             (* the user edits the text *)
| EvKeyDown (k : key) (shiftKey : bool) (now : N)
| EvFocus
| EvBlur
| EvClickOutside                       (* a click outside the input wrapper *)
| EvClickSend (now : N)
| EvClickChip (suggestion : string)
| EvClickItem (index : nat)
| EvClickFaq (faq : string)
| EvToggleSuggestions
| EvTimer (h : positive)
| EvAutocompleteSettles (query : string) (fetch : string -> ac_fetch)
| EvQuerySettles (timeoutId : positive) (o : query_outcome)
| EvLoadGreeting
| EvGreetingSettles (o : greet_outcome).

Definition handle_event (e : event) (w : widget) : option widget :=
  match e with
  | EvInput value => Some (on_input (set_input_value value w))
  | EvKeyDown k shiftKey now => Some (on_keydown k shiftKey now w)
  | EvFocus => Some (on_focus w)
  | EvBlur => Some (set_input_focused false w)
  | EvClickOutside => Some (hideAutocomplete w)
  | EvClickSend now => Some (sendMessage now w)
  | EvClickChip suggestion =>
      if Js.arr_includes (chips w) suggestion
      then Some (on_chip_click suggestion w) else None
  | EvClickItem index =>
      if index <? List.length (ac_children w)
      then Some (selectAutocompleteItem (Z.of_nat index) w) else None
  | EvClickFaq faq => Some (on_faq_click faq w)
  | EvToggleSuggestions => Some (toggleSuggestions w)
  | EvTimer h =>
      match take_timer h (timers w) with
      | Some (t, rest) => Some (run_callback (run t) (set_timers rest w))
      | None => None
      end
  | EvAutocompleteSettles query fetch => Some (handleAutocomplete_settle query fetch w)
  | EvQuerySettles timeoutId o =>
      match find (fun q => Pos.eqb (pq_timeoutId q) timeoutId) (inflight w) with
      | Some q =>
          if settles_as q o then
            let rest := filter (fun p => negb (Pos.eqb (pq_timeoutId p) timeoutId))
                               (inflight w) in
            Some (sendMessageWithQuery_settle q o (set_inflight rest w))
          else None
      | None => None
      end
  | EvLoadGreeting => Some (loadGreeting w)
  | EvGreetingSettles o => Some (loadGreeting_settle o w)
  end.

Inductive reachable : widget -> Prop :=
| reachable_initial : forall url, reachable (initial url)
| reachable_event : forall w e w',
    reachable w -> handle_event e w = Some w' -> reachable w'.

(** Running a list of events from a state. *)
Fixpoint run_events (es : list event) (w : widget) : option widget :=
  match es with
  | [] => Some w
  | e :: r =>
      match handle_event e w with
      | Some w' => run_events r w'
      | None => None
      end
  end.

(* ------------------------------------------------------------------ *)
(** ** The vocabulary of the properties *)

(** The policy in the words of the specification: distinct entries in
    first-seen order, the unused ones before the used ones, cut after three. *)
Definition unused_first (usedSuggestions candidates : list string) : list string :=
  let distinct := Js.set_spread candidates in
  firstn 3 (filter (fun s => negb (Js.arr_includes usedSuggestions s)) distinct
            ++ filter (fun s => Js.arr_includes usedSuggestions s) distinct).

(** The relevance test in the words of the specification: the entry
    contains the whole query or one of its words, the words being the
    pieces between runs of white space. *)
Definition relevant_by_words (trimmedQuery : string) (s : string) : bool :=
  Js.includes (Js.toLowerCase s) trimmedQuery
  || existsb (fun word => Js.includes (Js.toLowerCase s) word)
             (Js.split_ws trimmedQuery).

(** A response that is not OK. *)
Definition not_ok (f : ac_fetch) : bool :=
  match f with
  | AcResponse false _ => true
  | _ => false
  end.

(** The coordinator's invariant: at most one help surface is on screen, and
    the handles kept in [autocompleteTimeout] and [suggestionsTimeout] were
    issued earlier than the next handle [setTimeout] will give out. *)
Definition exclusive (w : widget) : Prop :=
  ac_visible w && sg_visible w = false.

Definition handles_issued (w : widget) : Prop :=
  (forall h, autocompleteTimeout w = Some h -> (h < next_timer w)%positive) /\
  (forall h, suggestionsTimeout w = Some h -> (h < next_timer w)%positive).

Definition coordinator_inv (w : widget) : Prop :=
  exclusive w /\ handles_issued w.

(** The methods that only move the help surfaces and their timers leave
    the conversation, the input and the recorded choices as they were. *)
Definition same_data (w w' : widget) : Prop :=
  messages w' = messages w /\ chat w' = chat w /\ requests w' = requests w /\
  usedSuggestions w' = usedSuggestions w /\
  autocompleteItems w' = autocompleteItems w /\
  input_value w' = input_value w /\ input_focused w' = input_focused w /\
  apiUrl w' = apiUrl w.




(** A run of the widget: the greeting call fails, the user types [what],
    the debounce timer fires, the user clears the input and both timers
    armed by that fire. *)
Definition sample_run : list event :=
  [ EvLoadGreeting; EvGreetingSettles GreetRejected;
    EvInput "what"; EvTimer 2; EvInput ""; EvTimer 3; EvTimer 4 ].


(** What the methods that move the help surfaces, arm their timers and
    look suggestions up leave as it was: the conversation, the text and the
    focus of the input and the recorded choices. *)
Definition conversation (w : widget) :=
  (messages w, chat w, input_value w, input_focused w, usedSuggestions w).

(** [sendMessageWithQuery] from the 500 ms timer to the call of [fetch]
    (lines 2061-2093), as a function of the state its first lines leave
    ([sendMessageWithQuery_halves]). *)
Definition sendMessageWithQuery_fetch (query : string) (now : N) (w : widget) : widget :=
  let w := snd (setTimeout CbAfterSend 500 w) in
  let w := addLoadingMessage now w in
  let controller := next_timer w in
  let armed := setTimeout (CbAbort controller) 60000 w in
  let w := set_inflight
             (inflight (snd armed)
              ++ [{| pq_loadingId := now; pq_timeoutId := fst armed; pq_aborted := false |}])
             (snd armed) in
  log_request (ReqQuery query) w.

(** The lookup the resolver issues for a text, if any, before its first
    [await]. *)
Definition lookup_of (query : string) : list request :=
  match local_stage query with
  | NeedsRemote trimmedQuery _ => [ReqAutocomplete trimmedQuery]
  | _ => []
  end.

(** A question is sent and nothing arrives: the 60 s timer of the call,
    the third timer armed, fires, and the call rejects with the abort error
    of the browser. *)
Definition deadline_run : list event :=
  [ EvInput "total cost"; EvClickSend 1700000000000; EvTimer 3;
    EvQuerySettles 3 (QRejected (abortError "The user aborted a request.")) ].


(** The widget after a question has been sent, and the pending call. *)
Definition asked : widget :=
  sendMessage 1700000000000
    (set_input_value "who is the candidate" (initial "http://localhost:5000/api")).

Definition sample_call : pending_query :=
  {| pq_loadingId := 1700000000000; pq_timeoutId := 2; pq_aborted := false |}.

(** A payload whose answer carries two of the field labels. *)
Definition sample_answer : query_data :=
  {| q_answer := Some "Candidate record
Full Name: A. Kumar
Email Address: a.kumar@example.com";
     q_error := None; q_suggestions := None; q_follow_up_message := None |}.

(** A server that refuses every query but [word], which it answers. *)
Definition refusing_all_but (word : string) (answer : list string) : string -> ac_fetch :=
  fun q => if String.eqb q word then AcResponse true (AcParsed (Some answer))
           else AcResponse false AcMalformed.

(* ================================================================== *)
(** * Properties *)

(* ------------------------------------------------------------------ *)
(** ** Arrays of strings *)

Lemma arr_includes_In : forall l x, Js.arr_includes l x = true <-> In x l.
Proof.
  intros l x. unfold Js.arr_includes. rewrite existsb_exists. split.
  - intros [y [Hy Heq]]. apply String.eqb_eq in Heq. now subst.
  - intros H. exists x. split; [assumption | apply String.eqb_refl].
Qed.

Lemma arr_includes_false : forall l x, Js.arr_includes l x = false <-> ~ In x l.
Proof.
  intros l x. rewrite <- arr_includes_In. destruct (Js.arr_includes l x); split; congruence.
Qed.

Lemma uniq_from_In : forall arr seen x,
  In x (Js.uniq_from seen arr) <-> In x arr /\ ~ In x seen.
Proof.
  induction arr as [|a arr IH]; intros seen x; simpl.
  - tauto.
  - destruct (Js.arr_includes seen a) eqn:E.
    + apply arr_includes_In in E. rewrite IH. split.
      * tauto.
      * intros [[->|H] Hn]; tauto.
    + apply arr_includes_false in E. simpl. rewrite IH. simpl. split.
      * intros [->|[H Hn]]; tauto.
      * intros [[->|H] Hn]; [tauto|].
        destruct (string_dec a x) as [->|Hne]; [tauto|]. right. tauto.
Qed.

Lemma uniq_from_NoDup : forall arr seen, NoDup (Js.uniq_from seen arr).
Proof.
  induction arr as [|a arr IH]; intros seen; simpl.
  - constructor.
  - destruct (Js.arr_includes seen a) eqn:E; [apply IH|].
    constructor; [|apply IH].
    rewrite uniq_from_In. simpl. tauto.
Qed.

(** [[...new Set(arr)]] keeps the first occurrence of every entry: reading
    one more entry at the end adds it exactly when it is new. *)
Lemma uniq_from_snoc : forall arr seen x,
  Js.uniq_from seen (arr ++ [x]) =
  if Js.arr_includes (seen ++ arr) x then Js.uniq_from seen arr
  else (Js.uniq_from seen arr ++ [x])%list.
Proof.
  induction arr as [|a arr IH]; intros seen x; simpl.
  - rewrite app_nil_r. destruct (Js.arr_includes seen x); reflexivity.
  - assert (Hperm : forall s, Js.arr_includes (s ++ a :: arr) x
                              = Js.arr_includes ((a :: s) ++ arr) x).
    { intros s. unfold Js.arr_includes. simpl. rewrite !existsb_app. simpl.
      destruct (existsb (String.eqb x) s), (String.eqb x a); reflexivity. }
    destruct (Js.arr_includes seen a) eqn:E.
    + rewrite IH. apply arr_includes_In in E.
      replace (Js.arr_includes (seen ++ a :: arr) x) with (Js.arr_includes (seen ++ arr) x);
        [reflexivity|].
      unfold Js.arr_includes. rewrite !existsb_app. simpl.
      destruct (String.eqb x a) eqn:Exa; [|reflexivity].
      apply String.eqb_eq in Exa. subst a.
      apply arr_includes_In in E. unfold Js.arr_includes in E. rewrite E. reflexivity.
    + rewrite IH, Hperm. destruct (Js.arr_includes ((a :: seen) ++ arr) x); reflexivity.
Qed.

Lemma set_spread_snoc : forall arr x,
  Js.set_spread (arr ++ [x]) =
  if Js.arr_includes arr x then Js.set_spread arr else (Js.set_spread arr ++ [x])%list.
Proof. intros. unfold Js.set_spread. now rewrite uniq_from_snoc. Qed.


Lemma set_spread_NoDup : forall arr, NoDup (Js.set_spread arr).
Proof. intros. apply uniq_from_NoDup. Qed.


Lemma NoDup_firstn_any : forall (A : Type) n (l : list A), NoDup l -> NoDup (firstn n l).
Proof.
  intros A n l H. rewrite <- (firstn_skipn n l) in H.
  now apply NoDup_app_remove_r in H.
Qed.

Lemma NoDup_partition : forall (p : string -> bool) l,
  NoDup l -> NoDup (filter (fun s => negb (p s)) l ++ filter p l)%list.
Proof.
  intros p l. induction 1 as [|a l Hin Hnd IH]; simpl.
  - constructor.
  - destruct (p a) eqn:E; simpl.
    + apply (proj2 (NoDup_Add (Add_app a (filter (fun s => negb (p s)) l) (filter p l)))).
      split; [assumption|]. rewrite in_app_iff, !filter_In. tauto.
    + constructor; [|assumption]. rewrite in_app_iff, !filter_In. tauto.
Qed.

Lemma filter_partition_length : forall (p : string -> bool) l,
  List.length (filter (fun s => negb (p s)) l) + List.length (filter p l) = List.length l.
Proof.
  intros p l. induction l as [|a l IH]; simpl; [reflexivity|].
  destruct (p a); simpl; lia.
Qed.

(* ------------------------------------------------------------------ *)
(** ** The reduction to at most three chips *)

Lemma finalSuggestions_unused_first : forall used l,
  finalSuggestions used l = unused_first used l.
Proof.
  intros used l. unfold finalSuggestions, unused_first, Js.slice0.
  set (Q := Js.set_spread l).
  set (U := filter (fun s => negb (Js.arr_includes used s)) Q).
  set (A := filter (fun s => Js.arr_includes used s) Q).
  assert (Hlen : List.length U + List.length A = List.length Q)
    by apply filter_partition_length.
  pose proof (length_firstn 3 U) as Hf.
  rewrite firstn_app.
  destruct (List.length (firstn 3 U) <? 3) eqn:E1; cbn [andb].
  - apply Nat.ltb_lt in E1.
    assert (HU : firstn 3 U = U) by (apply firstn_all2; lia).
    rewrite HU.
    destruct (List.length U <? List.length Q) eqn:E2; [reflexivity|].
    apply Nat.ltb_ge in E2. assert (HA : A = []) by (apply length_zero_iff_nil; lia).
    rewrite HA, firstn_nil, app_nil_r. reflexivity.
  - apply Nat.ltb_ge in E1.
    replace (3 - List.length U) with 0 by lia. rewrite firstn_O, app_nil_r. reflexivity.
Qed.

Lemma limitedSuggestions_unused_first : forall used l,
  limitedSuggestions used l = unused_first used l.
Proof.
  intros used l. unfold limitedSuggestions, unused_first, Js.slice0.
  set (Q := Js.set_spread l).
  set (U := filter (fun s => negb (Js.arr_includes used s)) Q).
  set (A := filter (fun s => Js.arr_includes used s) Q).
  pose proof (length_firstn 3 U) as Hf.
  rewrite firstn_app.
  destruct (List.length (firstn 3 U) <? 3) eqn:E1.
  - apply Nat.ltb_lt in E1.
    assert (HU : firstn 3 U = U) by (apply firstn_all2; lia).
    rewrite HU. reflexivity.
  - apply Nat.ltb_ge in E1.
    replace (3 - List.length U) with 0 by lia. rewrite firstn_O, app_nil_r. reflexivity.
Qed.


Lemma unused_first_NoDup : forall used l, NoDup (unused_first used l).
Proof.
  intros. unfold unused_first. apply NoDup_firstn_any.
  apply NoDup_partition with (p := fun s => Js.arr_includes used s).
  apply set_spread_NoDup.
Qed.





(* ------------------------------------------------------------------ *)
(** ** The coordinator's invariant *)

Create HintDb coordinator.

Ltac split_inv :=
  unfold coordinator_inv, exclusive, handles_issued, ac_visible, sg_visible in *;
  cbn in *;
  repeat match goal with
         | H : _ /\ _ |- _ => destruct H
         end.

Ltac close_inv :=
  repeat split; intros;
  repeat match goal with
         | H : Some _ = Some _ |- _ => inversion H; subst; clear H
         | H : None = Some _ |- _ => discriminate H
         | H : forall h, ?f = Some h -> _, E : ?f = Some _ |- _ => specialize (H _ E)
         end;
  try solve [ assumption | reflexivity | lia
            | match goal with |- ?a && false = false => apply andb_false_r end ].

Lemma inv_initial : forall url, coordinator_inv (initial url).
Proof. intros. split_inv. close_inv. Qed.

Lemma inv_clear_autocompleteTimeout : forall w,
  coordinator_inv w -> coordinator_inv (clear_autocompleteTimeout w).
Proof.
  intros w H. unfold clear_autocompleteTimeout.
  destruct (autocompleteTimeout w) eqn:E; [|assumption]. split_inv. close_inv.
Qed.

Lemma inv_clear_suggestionsTimeout : forall w,
  coordinator_inv w -> coordinator_inv (clear_suggestionsTimeout w).
Proof.
  intros w H. unfold clear_suggestionsTimeout.
  destruct (suggestionsTimeout w) eqn:E; [|assumption]. split_inv. close_inv.
Qed.

Lemma inv_setTimeout : forall cb ms w,
  coordinator_inv w -> coordinator_inv (snd (setTimeout cb ms w)).
Proof. intros cb ms w H. split_inv. close_inv. Qed.

Lemma inv_hideAutocomplete : forall w,
  coordinator_inv w -> coordinator_inv (hideAutocomplete w).
Proof.
  intros w H. unfold hideAutocomplete. cbv zeta.
  match goal with |- context [if ?c then _ else _] => destruct c end.
  - apply inv_setTimeout, inv_clear_autocompleteTimeout. split_inv. close_inv.
  - apply inv_clear_autocompleteTimeout. split_inv. close_inv.
Qed.

Lemma inv_hideSuggestions : forall w,
  coordinator_inv w -> coordinator_inv (hideSuggestions w).
Proof.
  intros w H. unfold hideSuggestions. cbv zeta.
  apply inv_clear_suggestionsTimeout in H. revert H.
  generalize (clear_suggestionsTimeout w). intros w' H. split_inv. close_inv.
Qed.

Lemma inv_showAutocomplete : forall items query w,
  coordinator_inv w -> coordinator_inv (showAutocomplete items query w).
Proof.
  intros items query w H. unfold showAutocomplete. cbv zeta.
  apply inv_hideSuggestions, inv_clear_suggestionsTimeout in H. revert H.
  generalize (clear_suggestionsTimeout (hideSuggestions w)). intros w' H.
  split_inv. close_inv.
Qed.

Lemma ac_visible_hideAutocomplete : forall w, ac_visible (hideAutocomplete w) = false.
Proof.
  intros w. unfold hideAutocomplete, clear_autocompleteTimeout, setTimeout. cbv zeta.
  repeat match goal with
         | |- context [if ?c then _ else _] => destruct c
         | |- context [match ?x with _ => _ end] => destruct x
         end; reflexivity.
Qed.

Lemma sg_display_hideAutocomplete : forall w,
  sg_display (hideAutocomplete w) = sg_display w.
Proof.
  intros w. unfold hideAutocomplete, clear_autocompleteTimeout, setTimeout. cbv zeta.
  repeat match goal with
         | |- context [if ?c then _ else _] => destruct c
         | |- context [match ?x with _ => _ end] => destruct x
         end; reflexivity.
Qed.

Lemma autocompleteTimeout_hideAutocomplete : forall w,
  autocompleteTimeout (hideAutocomplete w) = None.
Proof.
  intros w. unfold hideAutocomplete, clear_autocompleteTimeout, setTimeout. cbv zeta. cbn.
  destruct (autocompleteTimeout w) eqn:E; cbn;
    match goal with |- context [if ?c then _ else _] => destruct c end; cbn; auto.
Qed.

Lemma inv_showSuggestions : forall l title w,
  coordinator_inv w -> coordinator_inv (showSuggestions l title w).
Proof.
  intros l title w H. unfold showSuggestions. cbv zeta.
  apply inv_hideAutocomplete, inv_clear_autocompleteTimeout in H.
  assert (Hac : ac_display (clear_autocompleteTimeout (hideAutocomplete w)) = DisplayNone).
  { unfold clear_autocompleteTimeout. rewrite autocompleteTimeout_hideAutocomplete.
    pose proof (ac_visible_hideAutocomplete w) as Hv. unfold ac_visible in Hv.
    unfold hideAutocomplete, clear_autocompleteTimeout, setTimeout in *. cbv zeta in *.
    repeat match goal with
           | |- context [if ?c then _ else _] => destruct c
           | |- context [match ?x with _ => _ end] => destruct x
           end; reflexivity. }
  revert H Hac. generalize (clear_autocompleteTimeout (hideAutocomplete w)). intros w' H Hac.
  cbn. rewrite andb_false_r.
  destruct title as [t|]; [destruct (Js.nonempty t)|];
    destruct (List.length l =? 0); split_inv; close_inv.
Qed.

Lemma inv_showSuggestionsIfAvailable : forall w,
  coordinator_inv w -> coordinator_inv (showSuggestionsIfAvailable w).
Proof.
  intros w H. unfold showSuggestionsIfAvailable. cbv zeta.
  repeat match goal with |- context [if ?c then _ else _] => destruct c end;
    auto using inv_showSuggestions.
Qed.

Lemma inv_on_input : forall w, coordinator_inv w -> coordinator_inv (on_input w).
Proof.
  intros w H. unfold on_input. cbv zeta.
  apply inv_clear_autocompleteTimeout, inv_clear_suggestionsTimeout in H. revert H.
  generalize (clear_suggestionsTimeout (clear_autocompleteTimeout w)). intros w' H.
  match goal with |- context [if ?c then _ else _] => destruct c end.
  - apply inv_hideSuggestions in H. revert H. generalize (hideSuggestions w'). intros w2 H.
    split_inv. close_inv.
  - apply inv_hideAutocomplete in H. revert H. generalize (hideAutocomplete w'). intros w2 H.
    split_inv. close_inv.
Qed.

(** Assignments that leave the surfaces and the timer handles alone keep
    the invariant, by computation. *)
Lemma inv_set_input_value : forall v w,
  coordinator_inv w -> coordinator_inv (set_input_value v w).
Proof. intros v w H. exact H. Qed.

Lemma inv_set_input_focused : forall b w,
  coordinator_inv w -> coordinator_inv (set_input_focused b w).
Proof. intros b w H. exact H. Qed.

Lemma inv_set_preventSuggestions : forall b w,
  coordinator_inv w -> coordinator_inv (set_preventSuggestions b w).
Proof. intros b w H. exact H. Qed.

Lemma inv_set_usedSuggestions : forall l w,
  coordinator_inv w -> coordinator_inv (set_usedSuggestions l w).
Proof. intros l w H. exact H. Qed.

Lemma inv_set_currentAutocompleteIndex : forall i w,
  coordinator_inv w -> coordinator_inv (set_currentAutocompleteIndex i w).
Proof. intros i w H. exact H. Qed.

Lemma inv_set_timers : forall l w, coordinator_inv w -> coordinator_inv (set_timers l w).
Proof. intros l w H. exact H. Qed.

Lemma inv_toggleSuggestions : forall w,
  coordinator_inv w -> coordinator_inv (toggleSuggestions w).
Proof. intros w H. exact H. Qed.

Lemma inv_addMessage : forall r c w, coordinator_inv w -> coordinator_inv (addMessage r c w).
Proof. intros r c w H. exact H. Qed.

Lemma inv_addLoadingMessage : forall n w,
  coordinator_inv w -> coordinator_inv (addLoadingMessage n w).
Proof. intros n w H. exact H. Qed.

Lemma inv_removeMessage : forall n w,
  coordinator_inv w -> coordinator_inv (removeMessage n w).
Proof. intros n w H. exact H. Qed.

Lemma inv_log_request : forall r w, coordinator_inv w -> coordinator_inv (log_request r w).
Proof. intros r w H. exact H. Qed.

Lemma inv_set_inflight : forall l w, coordinator_inv w -> coordinator_inv (set_inflight l w).
Proof. intros l w H. exact H. Qed.

Lemma inv_clearTimeout : forall h w, coordinator_inv w -> coordinator_inv (clearTimeout h w).
Proof. intros h w H. exact H. Qed.

#[export] Hint Resolve inv_clear_autocompleteTimeout inv_clear_suggestionsTimeout
  inv_setTimeout inv_hideAutocomplete inv_hideSuggestions inv_showAutocomplete
  inv_showSuggestions inv_showSuggestionsIfAvailable inv_on_input
  inv_set_input_value inv_set_input_focused inv_set_preventSuggestions
  inv_set_usedSuggestions inv_set_currentAutocompleteIndex inv_set_timers
  inv_toggleSuggestions inv_addMessage inv_addLoadingMessage inv_removeMessage
  inv_log_request inv_set_inflight inv_clearTimeout : coordinator.

(** Case analysis on the tests of a method, then the hints. *)
Ltac by_cases :=
  cbv zeta;
  repeat match goal with
         | |- context [if ?c then _ else _] => destruct c
         | |- context [match ?x with _ => _ end] => destruct x
         end;
  auto 20 with coordinator.

Lemma inv_apply_action : forall a w,
  coordinator_inv w -> coordinator_inv (apply_action a w).
Proof. intros [items q| |] w H; simpl; auto with coordinator. Qed.

Lemma inv_handleAutocomplete_begin : forall q w,
  coordinator_inv w -> coordinator_inv (handleAutocomplete_begin q w).
Proof.
  intros q w H. unfold handleAutocomplete_begin.
  destruct (local_stage q); auto with coordinator.
Qed.

Lemma inv_handleAutocomplete_settle : forall q fetch w,
  coordinator_inv w -> coordinator_inv (handleAutocomplete_settle q fetch w).
Proof.
  intros q fetch w H. unfold handleAutocomplete_settle.
  destruct (local_stage q); auto.
  destruct (remote_stage q trimmedQuery lastWord fetch) as [remote act].
  apply inv_apply_action.
  destruct remote as [|s1 [|s2 [|s3 r]]]; auto; destruct s2; auto with coordinator.
Qed.

Lemma inv_on_focus : forall w, coordinator_inv w -> coordinator_inv (on_focus w).
Proof.
  intros w H. unfold on_focus. cbv zeta.
  match goal with |- context [if ?c then _ else _] => destruct c end;
    auto using inv_handleAutocomplete_begin with coordinator.
Qed.

Lemma inv_focus : forall w, coordinator_inv w -> coordinator_inv (focus w).
Proof. intros w H. unfold focus. destruct (input_focused w); auto using inv_on_focus. Qed.

#[export] Hint Resolve inv_focus : coordinator.

Lemma inv_setInputValue : forall v w,
  coordinator_inv w -> coordinator_inv (setInputValue v w).
Proof. intros. unfold setInputValue. auto with coordinator. Qed.

Lemma inv_selectAutocompleteItem : forall i w,
  coordinator_inv w -> coordinator_inv (selectAutocompleteItem i w).
Proof.
  intros. unfold selectAutocompleteItem. by_cases.
  auto 20 using inv_setInputValue with coordinator.
Qed.

Lemma inv_navigateAutocomplete : forall d w,
  coordinator_inv w -> coordinator_inv (navigateAutocomplete d w).
Proof. intros. unfold navigateAutocomplete. by_cases. Qed.

Lemma inv_on_chip_click : forall s w,
  coordinator_inv w -> coordinator_inv (on_chip_click s w).
Proof.
  intros. unfold on_chip_click. by_cases; auto 20 using inv_setInputValue with coordinator.
Qed.

Lemma inv_on_faq_click : forall s w,
  coordinator_inv w -> coordinator_inv (on_faq_click s w).
Proof. intros. unfold on_faq_click. auto using inv_setInputValue with coordinator. Qed.

Lemma inv_sendMessageWithQuery : forall q now w,
  coordinator_inv w -> coordinator_inv (sendMessageWithQuery q now w).
Proof. intros. unfold sendMessageWithQuery. cbv zeta. auto 20 with coordinator. Qed.

Lemma inv_sendMessage : forall now w,
  coordinator_inv w -> coordinator_inv (sendMessage now w).
Proof.
  intros. unfold sendMessage. cbv zeta.
  match goal with |- context [if ?c then _ else _] => destruct c end;
    auto using inv_sendMessageWithQuery with coordinator.
Qed.

Lemma inv_catch_block : forall id e w,
  coordinator_inv w -> coordinator_inv (catch_block id e w).
Proof. intros. unfold catch_block. cbv zeta. auto with coordinator. Qed.

Lemma inv_sendMessageWithQuery_settle : forall q o w,
  coordinator_inv w -> coordinator_inv (sendMessageWithQuery_settle q o w).
Proof.
  intros q o w H. unfold sendMessageWithQuery_settle. cbv zeta.
  destruct o as [e|ok status body]; [now apply inv_catch_block|].
  destruct ok; [|now apply inv_catch_block].
  destruct body as [se|data]; [now apply inv_catch_block|].
  cbv zeta. destruct (truthy (q_error data)); [auto with coordinator|].
  destruct (q_suggestions data) as [sugg|]; [|auto with coordinator].
  repeat match goal with |- context [if ?c then _ else _] => destruct c end;
    auto 20 with coordinator.
Qed.

Lemma inv_loadGreeting_settle : forall o w,
  coordinator_inv w -> coordinator_inv (loadGreeting_settle o w).
Proof.
  intros o w H. unfold loadGreeting_settle.
  destruct o as [|ok body]; [auto 20 with coordinator|].
  destruct ok; [|auto 20 with coordinator].
  destruct body as [data|]; [|auto 20 with coordinator].
  cbv zeta.
  assert (H1 : coordinator_inv
                 match truthy (g_message data) with
                 | Some m => addMessage Assistant m w
                 | None => w
                 end) by (destruct (truthy (g_message data)); auto with coordinator).
  revert H1. generalize (match truthy (g_message data) with
                         | Some m => addMessage Assistant m w
                         | None => w
                         end). intros w1 H1.
  destruct (g_has_data data); [|auto with coordinator].
  destruct (g_suggestions data); [|auto with coordinator].
  repeat match goal with |- context [if ?c then _ else _] => destruct c end;
    auto 20 with coordinator.
Qed.

Lemma inv_on_keydown : forall k shift now w,
  coordinator_inv w -> coordinator_inv (on_keydown k shift now w).
Proof.
  intros k shift now w H. unfold on_keydown. cbv zeta.
  destruct k;
    repeat match goal with |- context [if ?c then _ else _] => destruct c end;
    auto using inv_selectAutocompleteItem, inv_sendMessage, inv_navigateAutocomplete
      with coordinator.
Qed.

Lemma inv_run_callback : forall cb w,
  coordinator_inv w -> coordinator_inv (run_callback cb w).
Proof.
  intros cb w H. destruct cb; simpl;
    repeat match goal with |- context [if ?c then _ else _] => destruct c end;
    auto 20 using inv_handleAutocomplete_begin with coordinator.
Qed.

Lemma inv_handle_event : forall e w w',
  coordinator_inv w -> handle_event e w = Some w' -> coordinator_inv w'.
Proof.
  intros e w w' H He. destruct e; simpl in He;
    repeat match type of He with
           | context [if ?c then _ else _] => destruct c
           | context [match ?x with _ => _ end] => destruct x
           end;
    inversion He; subst; clear He;
    auto using inv_on_keydown, inv_on_focus, inv_sendMessage, inv_on_chip_click,
      inv_selectAutocompleteItem, inv_on_faq_click, inv_run_callback,
      inv_handleAutocomplete_settle, inv_sendMessageWithQuery_settle,
      inv_loadGreeting_settle with coordinator.
Qed.

Lemma reachable_inv : forall w, reachable w -> coordinator_inv w.
Proof.
  induction 1 as [url|w e w' _ IH He].
  - apply inv_initial.
  - eapply inv_handle_event; eassumption.
Qed.

Lemma run_events_reachable : forall es w w',
  reachable w -> run_events es w = Some w' -> reachable w'.
Proof.
  induction es as [|e es IH]; intros w w' Hw H; simpl in H.
  - inversion H; subst. assumption.
  - destruct (handle_event e w) as [w1|] eqn:E; [|discriminate].
    eapply IH; [|eassumption]. eapply reachable_event; eassumption.
Qed.

(* ------------------------------------------------------------------ *)
(** ** What the two reveal methods leave behind *)

(** Unfolding the coordinator's methods down to assignments. *)
Ltac unfold_methods :=
  unfold showSuggestionsIfAvailable, showSuggestions, showAutocomplete,
    selectAutocompleteItem, on_chip_click, on_faq_click, setInputValue, on_input,
    focus, hideSuggestions, hideAutocomplete, sendMessage, sendMessageWithQuery,
    catch_block, addMessage, addLoadingMessage, removeMessage, log_request,
    clear_autocompleteTimeout, clear_suggestionsTimeout, setTimeout, clearTimeout in *;
  cbv zeta in *.

Lemma pending_clearTimeout : forall h w, pending h (clearTimeout h w) = false.
Proof.
  intros h w. unfold pending, clearTimeout. cbn.
  induction (timers w) as [|t l IH]; simpl; [reflexivity|].
  destruct (Pos.eqb (handle t) h) eqn:E; simpl; [assumption|]. now rewrite E.
Qed.

Lemma same_data_trans : forall w1 w2 w3,
  same_data w1 w2 -> same_data w2 w3 -> same_data w1 w3.
Proof.
  unfold same_data. intros w1 w2 w3 H12 H23.
  repeat match goal with H : _ /\ _ |- _ => destruct H end.
  repeat split; congruence.
Qed.

Lemma same_data_clear_autocompleteTimeout : forall w,
  same_data w (clear_autocompleteTimeout w).
Proof.
  intros w. unfold clear_autocompleteTimeout.
  destruct (autocompleteTimeout w);
    unfold same_data; repeat (split; [reflexivity|]); reflexivity.
Qed.

Lemma same_data_clear_suggestionsTimeout : forall w,
  same_data w (clear_suggestionsTimeout w).
Proof.
  intros w. unfold clear_suggestionsTimeout.
  destruct (suggestionsTimeout w);
    unfold same_data; repeat (split; [reflexivity|]); reflexivity.
Qed.

Lemma same_data_setTimeout : forall cb ms w, same_data w (snd (setTimeout cb ms w)).
Proof. intros. unfold same_data. repeat (split; [reflexivity|]). reflexivity. Qed.

Lemma same_data_hideAutocomplete : forall w, same_data w (hideAutocomplete w).
Proof.
  intros w. unfold hideAutocomplete. cbv zeta.
  set (w0 := set_currentAutocompleteIndex (-1)
               (set_ac_display DisplayNone (set_ac_show false w))).
  assert (H0 : same_data w w0)
    by (unfold same_data; repeat (split; [reflexivity|]); reflexivity).
  assert (H1 : same_data w (clear_autocompleteTimeout w0))
    by (eapply same_data_trans; [exact H0 | apply same_data_clear_autocompleteTimeout]).
  destruct (input_blank (clear_autocompleteTimeout w0)); [|exact H1].
  eapply same_data_trans; [exact H1 | apply same_data_setTimeout].
Qed.

Lemma same_data_hideSuggestions : forall w, same_data w (hideSuggestions w).
Proof.
  intros w. unfold hideSuggestions. cbv zeta.
  eapply same_data_trans; [apply same_data_clear_suggestionsTimeout|].
  unfold same_data. repeat (split; [reflexivity|]). reflexivity.
Qed.


Lemma showAutocomplete_result : forall items query w,
  let w' := showAutocomplete items query w in
  sg_visible w' = false /\ chips w' = [] /\ suggestionsShown w' = false /\
  suggestionsTimeout w' = None /\
  (forall h, suggestionsTimeout w = Some h -> pending h w' = false) /\
  ac_visible w' = true /\ ac_children w' = items /\ autocompleteItems w' = items /\
  currentAutocompleteIndex w' = (-1)%Z /\
  w' = showAutocomplete items query (hideSuggestions w).
Proof.
  intros items query w. cbv zeta.
  repeat split;
    try (unfold_methods; destruct (suggestionsTimeout w) eqn:E;
         repeat (progress (cbn; rewrite ?E)); reflexivity).
  intros h Hh. pose proof (pending_clearTimeout h w) as Hp.
  unfold_methods. rewrite Hh. cbn. exact Hp.
Qed.

Lemma timers_hideAutocomplete : forall w,
  timers (hideAutocomplete w) =
  (match autocompleteTimeout w with
   | Some h => filter (fun t => negb (Pos.eqb (handle t) h)) (timers w)
   | None => timers w
   end ++ if input_blank w
          then [{| handle := next_timer w; delay := 100; run := CbResetPrevent |}]
          else [])%list.
Proof.
  intros w. unfold_methods. unfold input_blank, Js.trim. cbn.
  destruct (autocompleteTimeout w); cbn;
    match goal with |- context [if ?c then _ else _] => destruct c end; cbn;
    now rewrite ?app_nil_r.
Qed.

Lemma showSuggestions_result : forall suggestions title w,
  let w' := showSuggestions suggestions title w in
  ac_visible w' = false /\ autocompleteTimeout w' = None /\
  timers w' = timers (hideAutocomplete w) /\
  usedSuggestions w' = usedSuggestions w /\
  chips w' = finalSuggestions (usedSuggestions w) suggestions /\
  sg_visible w' = negb (List.length suggestions =? 0) /\
  suggestionsShown w' = negb (List.length suggestions =? 0) /\
  messages w' = messages w /\ chat w' = chat w /\ requests w' = requests w.
Proof.
  intros suggestions title w. cbv zeta.
  assert (Hnil : (List.length suggestions =? 0) = true ->
                 finalSuggestions (usedSuggestions w) suggestions = []).
  { intros H. apply Nat.eqb_eq, length_zero_iff_nil in H. now subst. }
  destruct (same_data_hideAutocomplete w) as (Hm & Hc & Hr & Hu & _).
  pose proof (autocompleteTimeout_hideAutocomplete w) as Ht.
  unfold showSuggestions. cbv zeta.
  unfold clear_autocompleteTimeout. rewrite Ht.
  revert Hm Hc Hr Hu Ht. generalize (hideAutocomplete w). intros w1 Hm Hc Hr Hu Ht.
  cbn. rewrite andb_false_r.
  destruct title as [t|]; [destruct (Js.nonempty t)|];
    destruct (List.length suggestions =? 0) eqn:E; cbn;
    rewrite ?Hu, ?Hnil by reflexivity; repeat split; assumption.
Qed.

(** C1.  In every state the widget can reach, the autocomplete dropdown
    and the chip surface are not both on screen.  In particular
    [showAutocomplete] ends with the chip surface hidden and emptied, the
    chip timer cancelled and its handle forgotten, and the items rendered
    on top of that hidden surface; [showSuggestions] ends with the dropdown
    hidden, the autocomplete timer cancelled and its handle forgotten, and
    renders its chips on top of that. *)
Theorem help_surfaces_mutually_exclusive : forall w,
  reachable w ->
  ~ (ac_visible w = true /\ sg_visible w = true) /\
  (forall items query,
     let w' := showAutocomplete items query w in
     w' = showAutocomplete items query (hideSuggestions w) /\
     sg_visible w' = false /\ chips w' = [] /\
     suggestionsTimeout w' = None /\
     (forall h, suggestionsTimeout w = Some h -> pending h w' = false) /\
     ac_visible w' = true /\ ac_children w' = items) /\
  (forall suggestions title,
     let w' := showSuggestions suggestions title w in
     ac_visible w' = false /\
     autocompleteTimeout w' = None /\
     (forall h, autocompleteTimeout w = Some h -> pending h w' = false) /\
     chips w' = finalSuggestions (usedSuggestions w) suggestions /\
     sg_visible w' = negb (List.length suggestions =? 0)).
Proof.
  intros w Hr. apply reachable_inv in Hr. destruct Hr as [Hex [Hac Hsg]].
  split; [|split].
  - unfold exclusive in Hex. intros [Ha Hs]. rewrite Ha, Hs in Hex. discriminate.
  - intros items query.
    destruct (showAutocomplete_result items query w)
      as (H1 & H2 & H3 & H4 & H5 & H6 & H7 & H8 & H9 & H10).
    cbv zeta. repeat split; assumption.
  - intros suggestions title.
    destruct (showSuggestions_result suggestions title w)
      as (H1 & H2 & H3 & H4 & H5 & H6 & _).
    cbv zeta. repeat split; try assumption.
    intros h Hh. specialize (Hac h Hh). unfold pending.
    rewrite H3, timers_hideAutocomplete, Hh, existsb_app.
    apply orb_false_iff. split.
    + induction (timers w) as [|t l IH]; simpl; [reflexivity|].
      destruct (Pos.eqb (handle t) h) eqn:E; simpl; [assumption|]. now rewrite E.
    + destruct (input_blank w); [|reflexivity]. simpl.
      rewrite orb_false_r. apply Pos.eqb_neq. lia.
Qed.

Lemma help_surfaces_mutually_exclusive_witness :
  exists w, run_events sample_run (initial "http://localhost:5000/api") = Some w /\
            sg_visible w = true /\
            ~ (ac_visible w = true /\ sg_visible w = true).
Proof.
  eexists. split; [vm_compute; reflexivity|]. split; [reflexivity|].
  refine (proj1 (help_surfaces_mutually_exclusive _)).
  apply (@run_events_reachable sample_run (initial "http://localhost:5000/api"));
    [apply reachable_initial | vm_compute; reflexivity].
Defined.

(* ------------------------------------------------------------------ *)
(** ** The chips after a reveal *)

Lemma uniq_from_NoDup_id : forall arr seen,
  NoDup arr -> (forall x, In x arr -> ~ In x seen) -> Js.uniq_from seen arr = arr.
Proof.
  induction arr as [|a arr IH]; intros seen Hnd Hs; simpl; [reflexivity|].
  inversion Hnd as [|? ? Hna Hnd']; subst.
  destruct (Js.arr_includes seen a) eqn:E.
  - apply arr_includes_In in E. exfalso. apply (Hs a); simpl; auto.
  - f_equal. apply IH; [assumption|].
    intros x Hx [->|Hin]; [contradiction|]. apply (Hs x); simpl; auto.
Qed.

Lemma set_spread_NoDup_id : forall arr, NoDup arr -> Js.set_spread arr = arr.
Proof. intros arr H. apply uniq_from_NoDup_id; auto. Qed.

Lemma filter_all : forall (p : string -> bool) l,
  (forall x, In x l -> p x = true) -> filter p l = l.
Proof.
  intros p l. induction l as [|a l IH]; intros H; simpl; [reflexivity|].
  rewrite (H a) by (simpl; auto). f_equal. apply IH. intros x Hx. apply H. simpl. auto.
Qed.








(** With four of the five defaults used, [showSuggestionsIfAvailable] shows
    the one unused default alone. *)
Example four_used_one_chip :
  let used := [ "What are all the column names in this file?";
                "How many consignments are there in total?";
                "What is the total transportation cost?";
                "What are all the source locations?" ] in
  chips (showSuggestionsIfAvailable
           (set_usedSuggestions used (initial "http://localhost:5000/api")))
  = ["What products are being shipped?"].
Proof. vm_compute. reflexivity. Qed.


(* ------------------------------------------------------------------ *)
(** ** Failures of the query call *)

Lemma catch_block_result : forall loadingId error w,
  let text := "Sorry, I encountered an error: " ++ errorMessage (apiUrl w) error in
  let w' := catch_block loadingId error w in
  chat w' = (remove_loading loadingId (chat w) ++ [Bubble Assistant text])%list /\
  messages w' = (messages w ++ [(Assistant, text)])%list /\
  requests w' = requests w /\ timers w' = timers w.
Proof. intros. cbv zeta. repeat split; reflexivity. Qed.

(** The placeholder made by [addLoadingMessage] is the node [removeMessage]
    takes out when nothing older carries the same id. *)
Lemma remove_loading_added : forall loadingId l r,
  ~ In (LoadingDots loadingId) l ->
  remove_loading loadingId (l ++ LoadingDots loadingId :: r) = (l ++ r)%list.
Proof.
  intros loadingId l r. induction l as [|n l IH]; intros Hn; simpl.
  - now rewrite N.eqb_refl.
  - destruct n as [t c|stamp].
    + f_equal. apply IH. intros H. apply Hn. now right.
    + destruct (stamp =? loadingId)%N eqn:E.
      * apply N.eqb_eq in E. subst. exfalso. apply Hn. now left.
      * f_equal. apply IH. intros H. apply Hn. now right.
Qed.

(** An error that is neither a [TypeError] nor a [TimeoutError] and whose
    message names neither a failed fetch nor a timeout is shown as it is. *)
Lemma errorMessage_verbatim : forall url e,
  Js.includes (message e) "Failed to fetch" = false ->
  Js.includes (message e) "NetworkError" = false ->
  Js.includes (message e) "timeout" = false ->
  String.eqb (name e) "TypeError" = false ->
  String.eqb (name e) "TimeoutError" = false ->
  errorMessage url e = message e.
Proof.
  intros url e H1 H2 H3 H4 H5. unfold errorMessage. now rewrite H1, H2, H3, H4, H5.
Qed.

(** C3, at the failing input.  When the 60 s timer aborts the call, the
    [fetch] promise rejects with the [AbortError] of [controller.abort()];
    here with the text ``The user aborted a request.''.  The [catch] block
    removes the loading placeholder and appends exactly one assistant
    message, but its text is the browser's abort text behind the generic
    prefix, not the timeout text: the timeout branch looks for the word
    [timeout] or the name [TimeoutError] and an [AbortError] has neither.
    So it is in the run [deadline_run], where a question is sent and its
    timer is the first thing to happen. *)
Theorem deadline_abort_shows_generic_error :
  (forall w q,
     let aborted := QRejected (abortError "The user aborted a request.") in
     let w' := sendMessageWithQuery_settle q aborted w in
     chat w' = (remove_loading (pq_loadingId q) (chat w)
                ++ [Bubble Assistant
                      "Sorry, I encountered an error: The user aborted a request."])%list /\
     messages w' = (messages w
                    ++ [(Assistant,
                         "Sorry, I encountered an error: The user aborted a request.")])%list /\
     errorMessage (apiUrl w) (abortError "The user aborted a request.") <> timeoutText) /\
  option_map chat (run_events deadline_run (initial "http://localhost:5000/api"))
  = Some [ Bubble User "total cost";
           Bubble Assistant "Sorry, I encountered an error: The user aborted a request." ].
Proof.
  split; [|vm_compute; reflexivity].
  intros w q. cbv zeta.
  assert (He : forall url,
             errorMessage url (abortError "The user aborted a request.")
             = "The user aborted a request.")
    by (intros url; apply errorMessage_verbatim; reflexivity).
  unfold sendMessageWithQuery_settle. cbv zeta.
  destruct (catch_block_result (pq_loadingId q)
              (abortError "The user aborted a request.") w)
    as (Hc & Hm & _).
  rewrite Hc, Hm, He. repeat split. discriminate.
Qed.

(** Whatever text the browser gives its abort error, short of one of the
    three words the [catch] block looks for, that text is what is shown. *)
Lemma abort_text_shown_verbatim : forall url text,
  Js.includes text "Failed to fetch" = false ->
  Js.includes text "NetworkError" = false ->
  Js.includes text "timeout" = false ->
  errorMessage url (abortError text) = text.
Proof. intros url text H1 H2 H3. now apply errorMessage_verbatim. Qed.

(* ------------------------------------------------------------------ *)
(** ** The personal-information filter *)

Lemma match_label_startsWith : forall label s,
  (exists r, match_label label s = Some r)
  <-> Js.startsWith (Js.toLowerCase s) (Js.toLowerCase label) = true.
Proof.
  induction label as [|a label IH]; intros s; simpl.
  - split; [reflexivity | eauto].
  - destruct s as [|b s]; simpl.
    + split; [intros [r H]; discriminate | discriminate].
    + destruct (Ascii.eqb (Js.lower_char a) (Js.lower_char b)) eqn:E; simpl.
      * apply IH.
      * split; [intros [r H]; discriminate | discriminate].
Qed.

Lemma match_pattern_at_startsWith : forall label s,
  match match_pattern_at label s with Some _ => true | None => false end
  = Js.startsWith (Js.toLowerCase s) (Js.toLowerCase label).
Proof.
  intros label s. unfold match_pattern_at.
  destruct (match_label label s) as [r|] eqn:E.
  - symmetry. apply match_label_startsWith. eauto.
  - destruct (Js.startsWith (Js.toLowerCase s) (Js.toLowerCase label)) eqn:P; [|reflexivity].
    apply match_label_startsWith in P. destruct P as [r P]. congruence.
Qed.

(** A pattern matches exactly the texts that contain its label, letter case
    apart: the two greedy runs after the label never fail. *)
Lemma pattern_test_includes : forall label s,
  pattern_test label s = Js.includes (Js.toLowerCase s) (Js.toLowerCase label).
Proof.
  intros label s. induction s as [|c s IH].
  - pose proof (match_pattern_at_startsWith label "") as H.
    cbn [pattern_test Js.includes Js.toLowerCase] in *. rewrite <- H.
    destruct (match_pattern_at label ""); reflexivity.
  - pose proof (match_pattern_at_startsWith label (String c s)) as H.
    cbn [pattern_test Js.includes Js.toLowerCase] in *. rewrite <- IH, <- H.
    destruct (match_pattern_at label (String c s)); reflexivity.
Qed.

Lemma hasPersonalInfo_iff : forall answer,
  hasPersonalInfo answer = true
  <-> exists label, In label personalInfoLabels /\ pattern_test label answer = true.
Proof.
  intros answer. unfold hasPersonalInfo.
  assert (G : forall labels flag,
             fold_left (fun flag label => if pattern_test label answer then true else flag)
                       labels flag = true
             <-> flag = true \/
                 exists label, In label labels /\ pattern_test label answer = true).
  { induction labels as [|l labels IH]; intros flag; simpl.
    - split; [auto | intros [H|[x [[] _]]]; assumption].
    - rewrite IH. destruct (pattern_test l answer) eqn:E.
      + split; [intros _; right; exists l; auto | auto].
      + split.
        * intros [H|[x [Hx Ht]]]; [auto | right; exists x; auto].
        * intros [H|[x [[->|Hx] Ht]]]; [auto | congruence | right; exists x; auto]. }
  rewrite G. split; [intros [H|H]; [discriminate | assumption] | auto].
Qed.

(** What the delivered branch appends, whatever timer it arms afterwards. *)
Lemma delivered_result : forall q status data w,
  truthy (q_error data) = None ->
  let w' := sendMessageWithQuery_settle q (QResponse true status (QParsed data)) w in
  chat w' = (remove_loading (pq_loadingId q) (chat w)
             ++ [Bubble Assistant (deliveredAnswer data)])%list /\
  messages w' = (messages w ++ [(Assistant, deliveredAnswer data)])%list.
Proof.
  intros q status data w He. cbv zeta. unfold sendMessageWithQuery_settle.
  cbv zeta. rewrite He.
  destruct (q_suggestions data) as [sugg|]; [|split; reflexivity].
  repeat match goal with |- context [if ?c then _ else _] => destruct c end;
    split; reflexivity.
Qed.

(** C4, as the code has it.  For a delivered payload (2xx, no [error]),
    the one assistant message appended is the fixed refusal text when the
    answer matches one of the ten field-label patterns (by
    [pattern_test_includes]: contains a label, letter case apart), and the
    answer itself when it is not empty and matches none; an answer that is
    absent or empty is shown as ``No answer provided''. *)
Theorem personal_info_replaces_whole_answer : forall w q status data,
  truthy (q_error data) = None ->
  let w' := sendMessageWithQuery_settle q (QResponse true status (QParsed data)) w in
  exists rendered,
    chat w' = (remove_loading (pq_loadingId q) (chat w)
               ++ [Bubble Assistant rendered])%list /\
    messages w' = (messages w ++ [(Assistant, rendered)])%list /\
    (forall answer,
       truthy (q_answer data) = Some answer ->
       ((exists label, In label personalInfoLabels /\ pattern_test label answer = true) ->
        rendered = personalInfoRefusal) /\
       ((forall label, In label personalInfoLabels -> pattern_test label answer = false) ->
        rendered = answer)) /\
    (truthy (q_answer data) = None -> rendered = noAnswerProvided).
Proof.
  intros w q status data He. cbv zeta.
  destruct (delivered_result q status data w He) as [Hc Hm].
  exists (deliveredAnswer data). split; [assumption|]. split; [assumption|].
  unfold deliveredAnswer, or_else. split.
  - intros answer Ha. rewrite Ha. split.
    + intros [label [Hl Hi]].
      assert (Hp : hasPersonalInfo answer = true).
      { apply hasPersonalInfo_iff. exists label. auto. }
      now rewrite Hp.
    + intros Hnone. destruct (hasPersonalInfo answer) eqn:Hp; [|reflexivity].
      apply hasPersonalInfo_iff in Hp. destruct Hp as [label [Hl Ht]].
      rewrite (Hnone label Hl) in Ht. discriminate.
  - intros Ha. rewrite Ha. reflexivity.
Qed.

Lemma personal_info_replaces_whole_answer_witness :
  messages (sendMessageWithQuery_settle sample_call
              (QResponse true 200 (QParsed sample_answer)) asked)
  = [(User, "who is the candidate"); (Assistant, personalInfoRefusal)].
Proof.
  destruct (personal_info_replaces_whole_answer asked sample_call 200 sample_answer eq_refl)
    as (rendered & _ & Hm & Ha & _).
  rewrite Hm.
  rewrite (proj1 (Ha _ eq_refl)); [reflexivity|].
  exists "Full Name". split; [simpl; auto | reflexivity].
Defined.

(** An empty answer matches no pattern and yet is not shown unchanged. *)
Lemma empty_answer_is_replaced :
  let data := {| q_answer := Some ""; q_error := None;
                 q_suggestions := None; q_follow_up_message := None |} in
  hasPersonalInfo "" = false /\
  messages (sendMessageWithQuery_settle sample_call (QResponse true 200 (QParsed data)) asked)
  = [(User, "who is the candidate"); (Assistant, "No answer provided")] /\
  "No answer provided" <> "".
Proof. cbv zeta. repeat split; try (vm_compute; reflexivity). discriminate. Qed.

(* ------------------------------------------------------------------ *)
(** ** The resolver *)

Lemma toLowerCase_length : forall s, String.length (Js.toLowerCase s) = String.length s.
Proof. induction s as [|c s IH]; simpl; congruence. Qed.

Lemma local_stage_Guarded : forall query,
  local_stage query = Guarded <-> String.length (Js.trim query) < 2.
Proof.
  intros query. unfold local_stage. cbv zeta.
  destruct (negb (Js.nonempty query) || (String.length (Js.trim query) <? 1)) eqn:G.
  - split; [intros _|reflexivity]. apply orb_true_iff in G as [G|G].
    + destruct query; [simpl; lia | discriminate].
    + apply Nat.ltb_lt in G. lia.
  - rewrite toLowerCase_length.
    destruct (String.length (Js.trim query) <? 2) eqn:L.
    + apply Nat.ltb_lt in L. tauto.
    + apply Nat.ltb_ge in L.
      split; [|lia].
      destruct (localSuggestions _ _) as [l| | |]; try discriminate.
      destruct (0 <? List.length l); discriminate.
Qed.

Lemma local_stage_NeedsRemote : forall query t l,
  local_stage query = NeedsRemote t l ->
  t = Js.toLowerCase (Js.trim query) /\ l = Js.last_of (Js.split_ws t) /\
  2 <= String.length (Js.trim query).
Proof.
  intros query t l. unfold local_stage. cbv zeta.
  destruct (negb (Js.nonempty query) || (String.length (Js.trim query) <? 1));
    [discriminate|].
  rewrite toLowerCase_length.
  destruct (String.length (Js.trim query) <? 2) eqn:L; [discriminate|].
  apply Nat.ltb_ge in L.
  destruct (localSuggestions _ _) as [s| | |]; try discriminate;
    try (destruct (0 <? List.length s); try discriminate);
    intros H; inversion H; subst; auto.
Qed.

Lemma not_ok_iff : forall f, not_ok f = true <-> exists body, f = AcResponse false body.
Proof.
  intros [|[] body]; simpl; split; try discriminate; eauto;
    intros [b H]; discriminate.
Qed.

Lemma remote_stage_steps : forall query t l fetch,
  fst (remote_stage query t l fetch) =
  if not_ok (fetch t) && ((2 <=? String.length l) && negb (String.eqb l t))
  then [StepRemote t; StepFallback l] else [StepRemote t].
Proof.
  intros query t l fetch. unfold remote_stage.
  destruct (fetch t) as [|[] [|[sugg|]]]; cbn [not_ok andb fst]; try reflexivity;
    try (destruct (0 <? List.length sugg); reflexivity);
    destruct ((2 <=? String.length l) && negb (String.eqb l t)); reflexivity.
Qed.

Lemma remote_stage_fallback : forall query t l fetch,
  not_ok (fetch t) && ((2 <=? String.length l) && negb (String.eqb l t)) = true ->
  snd (remote_stage query t l fetch) = fallback_stage query l fetch.
Proof.
  intros query t l fetch H. apply andb_true_iff in H as [H1 H2].
  unfold remote_stage. destruct (fetch t) as [|[] body]; try discriminate.
  now rewrite H2.
Qed.

Lemma fallback_stage_cases : forall query l fetch,
  (forall s sugg, fetch l = AcResponse true (AcParsed (Some (s :: sugg))) ->
                  fallback_stage query l fetch
                  = AcShow (firstn 5 (s :: sugg)) (Js.trim query)) /\
  ((forall s sugg, fetch l <> AcResponse true (AcParsed (Some (s :: sugg)))) ->
   fallback_stage query l fetch = AcHide).
Proof.
  intros query l fetch. unfold fallback_stage. split.
  - intros s sugg ->. reflexivity.
  - intros H. destruct (fetch l) as [|[] [|[[|s sugg]|]]]; try reflexivity.
    exfalso. eapply H. reflexivity.
Qed.

Lemma handleAutocomplete_settle_action : forall query fetch w,
  action (handleAutocomplete query fetch) = AcHide ->
  In (StepFallback (Js.last_of (Js.split_ws (Js.toLowerCase (Js.trim query)))))
     (steps (handleAutocomplete query fetch)) ->
  ac_visible (handleAutocomplete_settle query fetch w) = false.
Proof.
  intros query fetch w. unfold handleAutocomplete, handleAutocomplete_settle.
  destruct (local_stage query) as [|items q0| |t l] eqn:E; simpl;
    try (intros _ [H|[]]; discriminate); try tauto.
  destruct (remote_stage query t l fetch) as [remote act]. simpl.
  intros -> _. simpl. apply ac_visible_hideAutocomplete.
Qed.

(** C5.  A resolution looks up the last word exactly when its full-query
    lookup was made and answered with a response that is not OK, the last
    word of the normalized query differs from the whole of it, and the last
    word has at least two characters.  When that second lookup brings no
    non-empty suggestion list (no connection, not OK, no JSON, no array, an
    empty array), the resolution ends in [hideAutocomplete] and the
    dropdown is off screen; otherwise its first five entries are shown. *)
Theorem last_word_fallback : forall query fetch w,
  let trimmedQuery := Js.toLowerCase (Js.trim query) in
  let lastWord := Js.last_of (Js.split_ws trimmedQuery) in
  let r := handleAutocomplete query fetch in
  (forall q, In (StepFallback q) (steps r) <->
     q = lastWord /\
     (In (StepRemote trimmedQuery) (steps r) /\
      exists body, fetch trimmedQuery = AcResponse false body) /\
     lastWord <> trimmedQuery /\
     2 <= String.length lastWord) /\
  (In (StepFallback lastWord) (steps r) ->
   (forall s sugg, fetch lastWord = AcResponse true (AcParsed (Some (s :: sugg))) ->
                   action r = AcShow (firstn 5 (s :: sugg)) (Js.trim query)) /\
   ((forall s sugg, fetch lastWord <> AcResponse true (AcParsed (Some (s :: sugg)))) ->
    action r = AcHide /\
    ac_visible (handleAutocomplete_settle query fetch w) = false)).
Proof.
  intros query fetch w. cbv zeta.
  assert (Hshape :
    forall t l, local_stage query = NeedsRemote t l ->
      steps (handleAutocomplete query fetch)
      = StepLocal :: (if not_ok (fetch t)
                         && ((2 <=? String.length l) && negb (String.eqb l t))
                      then [StepRemote t; StepFallback l] else [StepRemote t])).
  { intros t l E. unfold handleAutocomplete. rewrite E.
    pose proof (remote_stage_steps query t l fetch) as Hs.
    destruct (remote_stage query t l fetch) as [remote act].
    cbn [fst steps] in *. now subst remote. }
  assert (Hsteps :
    forall q, In (StepFallback q) (steps (handleAutocomplete query fetch)) ->
      exists t l, local_stage query = NeedsRemote t l /\ q = l /\
        not_ok (fetch t) && ((2 <=? String.length l) && negb (String.eqb l t)) = true).
  { intros q.
    destruct (local_stage query) as [|items q0| |t l] eqn:E.
    - unfold handleAutocomplete. rewrite E. intros [].
    - unfold handleAutocomplete. rewrite E. intros [H|[]]. discriminate.
    - unfold handleAutocomplete. rewrite E. intros [H|[]]. discriminate.
    - rewrite (Hshape t l eq_refl).
      destruct (not_ok (fetch t) && ((2 <=? String.length l) && negb (String.eqb l t)))
        eqn:C.
      + intros [H|[H|[H|[]]]]; try discriminate. inversion H; subst.
        exists t, q. auto.
      + intros [H|[H|[]]]; discriminate. }
  split.
  - intros q. split.
    + intros Hq. destruct (Hsteps q Hq) as (t & l & E & -> & C).
      pose proof (local_stage_NeedsRemote _ E) as (Ht & Hl & _). subst t.
      rewrite (Hshape _ _ E), C.
      apply andb_true_iff in C as [C1 C2]. apply andb_true_iff in C2 as [C2 C3].
      apply not_ok_iff in C1. apply Nat.leb_le in C2.
      apply negb_true_iff, String.eqb_neq in C3. rewrite <- Hl.
      repeat split; auto. right. now left.
    + intros (-> & (Hin & Hbody) & Hne & Hlen).
      destruct (local_stage query) as [|items q0| |t l] eqn:E.
      * unfold handleAutocomplete in Hin. rewrite E in Hin. destruct Hin.
      * unfold handleAutocomplete in Hin. rewrite E in Hin.
        destruct Hin as [H|[]]. discriminate.
      * unfold handleAutocomplete in Hin. rewrite E in Hin.
        destruct Hin as [H|[]]. discriminate.
      * pose proof (local_stage_NeedsRemote _ E) as (Ht & Hl & _).
        rewrite <- Ht, <- Hl in *. rewrite (Hshape t l eq_refl).
        apply not_ok_iff in Hbody. rewrite Hbody.
        apply Nat.leb_le in Hlen. rewrite Hlen.
        apply String.eqb_neq in Hne. rewrite Hne. right. right. now left.
  - intros Hq.
    destruct (Hsteps _ Hq) as (t & l & E & Hl & C).
    assert (Hact : action (handleAutocomplete query fetch) = fallback_stage query l fetch).
    { unfold handleAutocomplete. rewrite E.
      pose proof (remote_stage_fallback query t l fetch C) as Hf.
      destruct (remote_stage query t l fetch) as [remote act]. cbn [snd action] in *.
      assumption. }
    destruct (fallback_stage_cases query l fetch) as [Hshow Hhide].
    rewrite Hl in *. split.
    + intros s sugg Hf. rewrite Hact. now apply Hshow.
    + intros Hnone. assert (Ha : action (handleAutocomplete query fetch) = AcHide)
        by (rewrite Hact; now apply Hhide).
      split; [assumption|]. apply handleAutocomplete_settle_action; [assumption|].
      pose proof (local_stage_NeedsRemote _ E) as (Ht & Hl' & _). subst t.
      rewrite <- Hl'. assumption.
Qed.

(** What a successful full-query lookup with a non-empty array displays. *)
Lemma full_lookup_display : forall query fetch t l s sugg,
  local_stage query = NeedsRemote t l ->
  fetch t = AcResponse true (AcParsed (Some (s :: sugg))) ->
  handleAutocomplete query fetch =
  {| steps := [StepLocal; StepRemote t];
     action :=
       AcShow (if 0 <? List.length (filter (relevant t) (s :: sugg))
               then firstn 5 (filter (relevant t) (s :: sugg))
               else firstn 5 (s :: sugg))
              (Js.trim query) |}.
Proof.
  intros query fetch t l s sugg E F. unfold handleAutocomplete, remote_stage.
  rewrite E, F. reflexivity.
Qed.

(** The two tests agree on a query whose words are one space apart. *)
Lemma relevant_single_spaced : forall t s,
  Js.split_space t = Js.split_ws t -> relevant t s = relevant_by_words t s.
Proof. intros t s H. unfold relevant, relevant_by_words. now rewrite H. Qed.

(** A query with two spaces in a row switches the filter off. *)
Lemma includes_empty : forall s, Js.includes s "" = true.
Proof. intros [|c s]; reflexivity. Qed.

Lemma relevant_empty_piece : forall t l,
  In "" (Js.split_space t) -> filter (relevant t) l = l.
Proof.
  intros t l H. apply filter_all. intros s _. unfold relevant.
  apply orb_true_iff. right. apply existsb_exists. exists "".
  split; [assumption | apply includes_empty].
Qed.

Example relevant_single_spaced_ex :
  filter (relevant "zz qq") ["nothing here"; "zz top"] = ["zz top"].
Proof. reflexivity. Qed.

(** C6, at the failing input.  The query [zz  qq] has its two words two
    spaces apart and the server answers [nothing here] and [zz top].  Only
    [zz top] contains the query or one of its words, yet both entries are
    displayed: [split(' ')] yields an empty piece between the two spaces
    and every entry contains the empty string, so the filter keeps all. *)
Theorem relevance_filter_keeps_all_on_double_space :
  let fetch := fun _ : string =>
                 AcResponse true (AcParsed (Some ["nothing here"; "zz top"])) in
  Js.split_ws "zz  qq" = ["zz"; "qq"] /\
  Js.split_space "zz  qq" = ["zz"; ""; "qq"] /\
  filter (relevant_by_words "zz  qq") ["nothing here"; "zz top"] = ["zz top"] /\
  filter (relevant "zz  qq") ["nothing here"; "zz top"] = ["nothing here"; "zz top"] /\
  handleAutocomplete "zz  qq" fetch =
  {| steps := [StepLocal; StepRemote "zz  qq"];
     action := AcShow ["nothing here"; "zz top"] "zz  qq" |}.
Proof. cbv zeta. repeat split; vm_compute; reflexivity. Qed.

(** C7, as the code has it.  The resolver goes on to its lookups exactly
    for an input of at least two characters once trimmed; an input that is
    empty, blank or a single character resolves to nothing and hides the
    dropdown. *)
Theorem resolver_needs_two_characters : forall query fetch,
  let r := handleAutocomplete query fetch in
  (steps r = [] <-> String.length (Js.trim query) < 2) /\
  (steps r = [] -> action r = AcHide) /\
  (steps r <> [] -> exists rest, steps r = StepLocal :: rest).
Proof.
  intros query fetch. cbv zeta. unfold handleAutocomplete.
  destruct (local_stage query) as [|items q0| |t l] eqn:E.
  - apply local_stage_Guarded in E. simpl. repeat split; auto. intros H. now elim H.
  - assert (H : ~ String.length (Js.trim query) < 2)
      by (intros H; apply local_stage_Guarded in H; congruence).
    simpl. repeat split; try discriminate; try tauto. eauto.
  - assert (H : ~ String.length (Js.trim query) < 2)
      by (intros H; apply local_stage_Guarded in H; congruence).
    simpl. repeat split; try discriminate; try tauto. eauto.
  - assert (H : ~ String.length (Js.trim query) < 2)
      by (intros H; apply local_stage_Guarded in H; congruence).
    destruct (remote_stage query t l fetch) as [remote act].
    simpl. repeat split; try discriminate; try tauto. eauto.
Qed.

(** The input [w] has one character once trimmed and a server ready to
    answer it, yet its resolution makes no lookup and hides the dropdown,
    as the empty input does. *)
Lemma one_character_is_not_resolved :
  let fetch := fun _ : string =>
                 AcResponse true (AcParsed (Some ["What is the total weight?"])) in
  String.length (Js.trim "w") = 1 /\
  handleAutocomplete "w" fetch = {| steps := []; action := AcHide |} /\
  handleAutocomplete "" fetch = {| steps := []; action := AcHide |} /\
  handleAutocomplete "wz" fetch =
  {| steps := [StepLocal; StepRemote "wz"];
     action := AcShow ["What is the total weight?"] "wz" |}.
Proof. cbv zeta. repeat split; vm_compute; reflexivity. Qed.

(* ------------------------------------------------------------------ *)
(** ** What the coordinator leaves alone *)

Ltac field_simpl :=
  cbn [messages chat inflight input_value input_focused usedSuggestions requests
       ac_display ac_show ac_children autocompleteItems
       set_messages set_currentAutocompleteIndex set_autocompleteItems
       set_suggestionsShown set_usedSuggestions set_autocompleteTimeout
       set_suggestionsTimeout set_preventSuggestions set_input_value set_input_focused
       set_ac_display set_ac_show set_ac_children set_sg_display set_sg_collapsed
       set_sg_title set_chips set_chat set_timers set_next_timer set_requests
       set_inflight setTimeout clearTimeout log_request snd fst].

Lemma conversation_same_data : forall w w',
  same_data w w' -> conversation w' = conversation w.
Proof.
  unfold same_data, conversation. intros w w' (Hm & Hc & _ & Hu & _ & Hv & Hf & _).
  now rewrite Hm, Hc, Hu, Hv, Hf.
Qed.

Lemma conversation_hideAutocomplete : forall w,
  conversation (hideAutocomplete w) = conversation w.
Proof. intros w. apply conversation_same_data, same_data_hideAutocomplete. Qed.


Lemma conversation_showAutocomplete : forall items query w,
  conversation (showAutocomplete items query w) = conversation w.
Proof.
  intros items query w.
  assert (H : conversation (clear_suggestionsTimeout (hideSuggestions w)) = conversation w).
  { apply conversation_same_data.
    eapply same_data_trans;
      [apply same_data_hideSuggestions | apply same_data_clear_suggestionsTimeout]. }
  unfold showAutocomplete. cbv zeta. revert H.
  generalize (clear_suggestionsTimeout (hideSuggestions w)). intros w1 H.
  rewrite <- H. reflexivity.
Qed.

Lemma conversation_handleAutocomplete_begin : forall query w,
  conversation (handleAutocomplete_begin query w) = conversation w.
Proof.
  intros query w. unfold handleAutocomplete_begin.
  destruct (local_stage query);
    auto using conversation_hideAutocomplete, conversation_showAutocomplete.
Qed.

Lemma requests_clear_autocompleteTimeout : forall w,
  requests (clear_autocompleteTimeout w) = requests w.
Proof. intros w. unfold clear_autocompleteTimeout. destruct (autocompleteTimeout w); reflexivity. Qed.

Lemma requests_clear_suggestionsTimeout : forall w,
  requests (clear_suggestionsTimeout w) = requests w.
Proof. intros w. unfold clear_suggestionsTimeout. destruct (suggestionsTimeout w); reflexivity. Qed.

Lemma requests_hideAutocomplete : forall w, requests (hideAutocomplete w) = requests w.
Proof. intros w. apply (same_data_hideAutocomplete w). Qed.

Lemma requests_showAutocomplete : forall items query w,
  requests (showAutocomplete items query w) = requests w.
Proof.
  intros items query w.
  assert (H : requests (clear_suggestionsTimeout (hideSuggestions w)) = requests w)
    by (rewrite requests_clear_suggestionsTimeout; apply (same_data_hideSuggestions w)).
  unfold showAutocomplete. cbv zeta. revert H.
  generalize (clear_suggestionsTimeout (hideSuggestions w)). intros w1 H.
  rewrite <- H. reflexivity.
Qed.

(** The part of the resolver that runs at once issues at most the lookup
    of the whole text. *)
Lemma requests_handleAutocomplete_begin : forall query w,
  requests (handleAutocomplete_begin query w) = (requests w ++ lookup_of query)%list.
Proof.
  intros query w. unfold handleAutocomplete_begin, lookup_of.
  destruct (local_stage query); rewrite ?app_nil_r;
    auto using requests_hideAutocomplete, requests_showAutocomplete.
Qed.

(** [input.focus()] on an input that holds the focus, or whose text is
    shorter than two characters, does no more than give it the focus. *)
Lemma focus_holding : forall w, input_focused w = true -> focus w = w.
Proof. intros w H. unfold focus. now rewrite H. Qed.

Lemma focus_taking : forall w, input_focused w = false -> focus w = on_focus w.
Proof. intros w H. unfold focus. now rewrite H. Qed.

Lemma focus_short : forall w,
  String.length (input_value w) < 2 -> focus w = set_input_focused true w.
Proof.
  intros w H. unfold focus, on_focus. cbv zeta. field_simpl.
  replace (2 <=? String.length (input_value w)) with false
    by (symmetry; apply Nat.leb_gt; exact H).
  rewrite andb_false_r.
  destruct (input_focused w) eqn:E; [|reflexivity].
  destruct w; simpl in *; subst; reflexivity.
Qed.

Lemma length_trimStart : forall s, String.length (Js.trimStart s) <= String.length s.
Proof.
  induction s as [|c s IH]; simpl; [lia|]. destruct (Js.is_space c); simpl; lia.
Qed.

Lemma length_trimEnd : forall s, String.length (Js.trimEnd s) <= String.length s.
Proof.
  induction s as [|c s IH]; simpl; [lia|].
  destruct (Js.trimEnd s); [destruct (Js.is_space c)|]; simpl in *; lia.
Qed.

Lemma length_trim : forall s, String.length (Js.trim s) <= String.length s.
Proof.
  intros s. unfold Js.trim.
  pose proof (length_trimEnd (Js.trimStart s)). pose proof (length_trimStart s). lia.
Qed.

(** A text the resolver does not guard has two characters or more. *)
Lemma local_stage_long : forall query,
  local_stage query <> Guarded -> 2 <= String.length query.
Proof.
  intros query H.
  destruct (Nat.lt_ge_cases (String.length (Js.trim query)) 2) as [L|L].
  - exfalso. apply H. now apply local_stage_Guarded.
  - pose proof (length_trim query). lia.
Qed.

(** What the [focus] listener does with a text. *)
Lemma on_focus_result : forall w,
  let w' := on_focus w in
  conversation w' = (messages w, chat w, input_value w, true, usedSuggestions w) /\
  requests w' = (requests w ++ lookup_of (input_value w))%list /\
  match local_stage (input_value w) with
  | LocalShow items _ => ac_visible w' = true /\ ac_children w' = items
  | Guarded =>
      ac_visible w' = if 2 <=? String.length (input_value w) then false else ac_visible w
  | _ => ac_visible w' = ac_visible w
  end.
Proof.
  intros w. cbv zeta. unfold on_focus. cbv zeta. field_simpl.
  destruct (Js.nonempty (input_value w) && (2 <=? String.length (input_value w))) eqn:C.
  - rewrite conversation_handleAutocomplete_begin, requests_handleAutocomplete_begin.
    split; [reflexivity|]. split; [reflexivity|].
    apply andb_true_iff in C. destruct C as [_ C]. rewrite C.
    unfold handleAutocomplete_begin.
    destruct (local_stage (input_value w)) as [|items q| |t l].
    + apply ac_visible_hideAutocomplete.
    + destruct (showAutocomplete_result items q (set_input_focused true w))
        as (_ & _ & _ & _ & _ & Hv & Hk & _).
      split; assumption.
    + reflexivity.
    + reflexivity.
  - split; [reflexivity|].
    assert (Hs : String.length (input_value w) < 2).
    { apply andb_false_iff in C. destruct C as [C|C].
      - destruct (input_value w); [simpl; lia | discriminate].
      - now apply Nat.leb_gt. }
    assert (Hg : local_stage (input_value w) = Guarded).
    { destruct (local_stage (input_value w)) eqn:E; try reflexivity;
        exfalso; (assert (Hl : 2 <= String.length (input_value w))
                    by (apply local_stage_long; congruence)); lia. }
    unfold lookup_of. rewrite Hg, app_nil_r. split; [reflexivity|].
    replace (2 <=? String.length (input_value w)) with false
      by (symmetry; apply Nat.leb_gt; exact Hs).
    reflexivity.
Qed.

(* ------------------------------------------------------------------ *)
(** ** Who records a choice

    [usedSuggestions] through every method but the click on a chip. *)















Lemma used_setTimeout : forall cb ms w,
  usedSuggestions (snd (setTimeout cb ms w)) = usedSuggestions w.
Proof. reflexivity. Qed.


Lemma sendMessageWithQuery_halves : forall query now w,
  sendMessageWithQuery query now w
  = sendMessageWithQuery_fetch query now
      (focus (set_input_value ""
                (hideSuggestions
                   (hideAutocomplete
                      (set_preventSuggestions true (addMessage User query w)))))).
Proof. reflexivity. Qed.

Lemma sendMessageWithQuery_fetch_result : forall query now w,
  let w' := sendMessageWithQuery_fetch query now w in
  messages w' = messages w /\
  chat w' = (chat w ++ [LoadingDots now])%list /\
  requests w' = (requests w ++ [ReqQuery query])%list /\
  input_value w' = input_value w /\
  ac_visible w' = ac_visible w /\ sg_visible w' = sg_visible w /\ apiUrl w' = apiUrl w.
Proof. intros. cbv zeta. repeat split. Qed.












(* ------------------------------------------------------------------ *)
(** ** Selecting an autocomplete item *)






(* ------------------------------------------------------------------ *)
(** ** Startup without a greeting, and sending nothing *)

(** A list of at most three distinct candidates is shown whole, the order
    apart. *)
Lemma unused_first_short : forall used l,
  NoDup l -> List.length l <= 3 ->
  List.length (unused_first used l) = List.length l /\
  (forall s, In s (unused_first used l) <-> In s l).
Proof.
  intros used l Hnd Hlen. unfold unused_first.
  rewrite set_spread_NoDup_id by assumption.
  pose proof (filter_partition_length (fun s => Js.arr_includes used s) l) as Hp.
  rewrite firstn_all2 by (rewrite length_app; lia).
  split; [rewrite length_app; lia|].
  intros s. rewrite in_app_iff, !filter_In.
  destruct (Js.arr_includes used s); simpl; tauto.
Qed.

Lemma defaultSuggestions_NoDup : NoDup defaultSuggestions.
Proof.
  assert (H : Js.set_spread defaultSuggestions = defaultSuggestions)
    by (vm_compute; reflexivity).
  rewrite <- H. apply set_spread_NoDup.
Qed.

(** C9.  When the greeting call fails, by a rejected [fetch] or by a
    response that is not OK, the widget appends the hard-coded greeting as
    one assistant message and shows the chip surface with exactly the three
    hard-coded suggestions (in the order written when none of them has been
    used), the dropdown being hidden. *)
Theorem greeting_failure_falls_back : forall w o,
  (o = GreetRejected \/ exists body, o = GreetResponse false body) ->
  let w' := loadGreeting_settle o w in
  messages w' = (messages w ++ [(Assistant, defaultGreeting)])%list /\
  chat w' = (chat w ++ [Bubble Assistant defaultGreeting])%list /\
  sg_visible w' = true /\
  ac_visible w' = false /\
  List.length (chips w') = 3 /\
  NoDup (chips w') /\
  (forall s, In s (chips w') <-> In s defaultSuggestions) /\
  (usedSuggestions w = [] -> chips w' = defaultSuggestions).
Proof.
  intros w o Ho. cbv zeta.
  assert (E : loadGreeting_settle o w
              = showSuggestions defaultSuggestions None
                  (addMessage Assistant defaultGreeting w))
    by (destruct Ho as [->|[body ->]]; reflexivity).
  rewrite E.
  destruct (showSuggestions_result defaultSuggestions None
              (addMessage Assistant defaultGreeting w))
    as (Hac & _ & _ & _ & Hc & Hv & _ & Hm & Hch & _).
  rewrite Hc, Hv, Hm, Hch, finalSuggestions_unused_first.
  change (usedSuggestions (addMessage Assistant defaultGreeting w))
    with (usedSuggestions w).
  destruct (unused_first_short (usedSuggestions w) defaultSuggestions_NoDup)
    as [Hlen Hin]; [simpl; lia|].
  repeat split; try assumption; try reflexivity.
  - apply unused_first_NoDup.
  - apply Hin.
  - apply Hin.
  - intros ->. reflexivity.
Qed.

Lemma greeting_failure_falls_back_witness :
  let w' := loadGreeting_settle GreetRejected
              (loadGreeting (initial "http://localhost:5000/api")) in
  messages w' = [(Assistant, defaultGreeting)] /\
  chips w' = [ "What are all the column names in this file?";
               "How many consignments are there in total?";
               "What is the total transportation cost?" ].
Proof.
  destruct (@greeting_failure_falls_back
              (loadGreeting (initial "http://localhost:5000/api")) GreetRejected
              (or_introl eq_refl))
    as (Hm & _ & _ & _ & _ & _ & _ & Hc).
  split; [exact Hm | exact (Hc eq_refl)].
Defined.

(** Asking for the focus on an input that has just been emptied. *)
Lemma focus_cleared : forall w,
  focus (set_input_value "" w) = set_input_focused true (set_input_value "" w).
Proof. intros w. apply focus_short. simpl. lia. Qed.

Lemma sendMessageWithQuery_result : forall query now w,
  let w' := sendMessageWithQuery query now w in
  messages w' = (messages w ++ [(User, query)])%list /\
  chat w' = (chat w ++ [Bubble User query; LoadingDots now])%list /\
  requests w' = (requests w ++ [ReqQuery query])%list /\
  input_value w' = "" /\ ac_visible w' = false /\ sg_visible w' = false /\
  apiUrl w' = apiUrl w.
Proof.
  intros query now w. cbv zeta. rewrite sendMessageWithQuery_halves, focus_cleared.
  assert (H0 : same_data (set_preventSuggestions true (addMessage User query w))
                 (hideSuggestions
                    (hideAutocomplete
                       (set_preventSuggestions true (addMessage User query w)))))
    by (eapply same_data_trans;
        [apply same_data_hideAutocomplete | apply same_data_hideSuggestions]).
  assert (Hv : ac_visible
                 (hideSuggestions
                    (hideAutocomplete
                       (set_preventSuggestions true (addMessage User query w)))) = false).
  { rewrite <- (ac_visible_hideAutocomplete
                  (set_preventSuggestions true (addMessage User query w))).
    generalize (hideAutocomplete (set_preventSuggestions true (addMessage User query w))).
    intros w2. unfold hideSuggestions, clear_suggestionsTimeout.
    destruct (suggestionsTimeout w2); reflexivity. }
  assert (Hs : sg_visible
                 (hideSuggestions
                    (hideAutocomplete
                       (set_preventSuggestions true (addMessage User query w)))) = false).
  { generalize (hideAutocomplete (set_preventSuggestions true (addMessage User query w))).
    intros w2. unfold hideSuggestions, clear_suggestionsTimeout.
    destruct (suggestionsTimeout w2); reflexivity. }
  revert H0 Hv Hs.
  generalize (hideSuggestions
                (hideAutocomplete (set_preventSuggestions true (addMessage User query w)))).
  intros w1 (Hm & Hc & Hr & _ & _ & _ & _ & Hu) Hv Hs.
  change (messages w1 = (messages w ++ [(User, query)])%list) in Hm.
  change (chat w1 = (chat w ++ [Bubble User query])%list) in Hc.
  change (requests w1 = requests w) in Hr.
  change (apiUrl w1 = apiUrl w) in Hu.
  destruct (sendMessageWithQuery_fetch_result query now
              (set_input_focused true (set_input_value "" w1)))
    as (Fm & Fch & Fr & Fval & Fv & Fs & Fu).
  cbv zeta in *. rewrite Fm, Fch, Fr, Fval, Fv, Fs, Fu.
  change (messages w1 = (messages w ++ [(User, query)])%list /\
          (chat w1 ++ [LoadingDots now])%list
          = (chat w ++ [Bubble User query; LoadingDots now])%list /\
          (requests w1 ++ [ReqQuery query])%list = (requests w ++ [ReqQuery query])%list /\
          "" = "" /\ ac_visible w1 = false /\ sg_visible w1 = false /\ apiUrl w1 = apiUrl w).
  rewrite Hm, Hc, Hr, Hv, Hs, Hu, <- app_assoc. repeat split.
Qed.

(** A question and the failure of its call: the placeholder made for the
    call is the node the [catch] block removes, so the conversation grows
    by the question and one assistant message. *)
Lemma send_then_fail_chat : forall query now error w,
  ~ In (LoadingDots now) (chat w) ->
  chat (catch_block now error (sendMessageWithQuery query now w))
  = (chat w ++ [ Bubble User query;
                 Bubble Assistant ("Sorry, I encountered an error: "
                                   ++ errorMessage (apiUrl w) error) ])%list.
Proof.
  intros query now error w Hfresh.
  destruct (sendMessageWithQuery_result query now w) as (_ & Hc & _ & _ & _ & _ & Hurl).
  destruct (catch_block_result now error (sendMessageWithQuery query now w))
    as (Hcb & _).
  cbv zeta in *. rewrite Hcb, Hc, Hurl.
  replace (chat w ++ [Bubble User query; LoadingDots now])%list
    with ((chat w ++ [Bubble User query]) ++ LoadingDots now :: [])%list
    by (rewrite <- app_assoc; reflexivity).
  rewrite remove_loading_added.
  - rewrite app_nil_r, <- app_assoc. reflexivity.
  - intros H. apply in_app_or in H as [H|[H|[]]]; [contradiction | discriminate].
Qed.

Lemma addMessage_result : forall type content w,
  let w' := addMessage type content w in
  requests w' = requests w /\
  messages w' = (messages w ++ [(type, content)])%list /\
  chat w' = (chat w ++ [Bubble type content])%list /\
  input_value w' = input_value w /\ input_focused w' = input_focused w /\
  ac_visible w' = ac_visible w /\ timers w' = timers w.
Proof. intros. cbv zeta. repeat split. Qed.

(** The resolver guards a blank text. *)
Lemma local_stage_blank : forall query, Js.trim query = "" -> local_stage query = Guarded.
Proof. intros query H. apply local_stage_Guarded. rewrite H. simpl. lia. Qed.

(** C10.  A send with an empty or blank input issues no request, appends
    neither a user message nor a loading placeholder, and adds to the
    message list the one assistant message that asks for a question; the
    text of the input stays, and the input is given the focus.  An input
    that holds the focus, or holds fewer than two characters, has no timer
    touched.  For a blank text of two characters or more in an input
    without the focus, asking for the focus runs the [focus] listener,
    whose resolver stops at its guard: the dropdown is hidden, a pending
    debounce timer of the dropdown is cancelled and the 100 ms timer that
    lifts [preventSuggestions] is armed.  A send with any other input
    appends the trimmed text as a user message and the loading placeholder
    and issues the query: it never takes that path.  (The timers are those
    of the embedding; the 2 s timer that restores the border of the input
    is styling.) *)
Theorem blank_send_only_advises : forall now w,
  (Js.trim (input_value w) = "" ->
   let w' := sendMessage now w in
   requests w' = requests w /\
   messages w' = (messages w ++ [(Assistant, emptyQueryAdvice)])%list /\
   chat w' = (chat w ++ [Bubble Assistant emptyQueryAdvice])%list /\
   input_value w' = input_value w /\ input_focused w' = true /\
   (input_focused w = true \/ String.length (input_value w) < 2 ->
    timers w' = timers w) /\
   (input_focused w = false -> 2 <= String.length (input_value w) ->
    ac_visible w' = false /\
    timers w'
    = (match autocompleteTimeout w with
       | Some h => filter (fun t => negb (Pos.eqb (handle t) h)) (timers w)
       | None => timers w
       end ++ [{| handle := next_timer w; delay := 100; run := CbResetPrevent |}])%list)) /\
  (Js.trim (input_value w) <> "" ->
   let w' := sendMessage now w in
   requests w' = (requests w ++ [ReqQuery (Js.trim (input_value w))])%list /\
   messages w' = (messages w ++ [(User, Js.trim (input_value w))])%list /\
   chat w' = (chat w ++ [Bubble User (Js.trim (input_value w)); LoadingDots now])%list).
Proof.
  intros now w. split; intros H; cbv zeta; unfold sendMessage; cbv zeta.
  - rewrite H. cbn [Js.nonempty negb].
    destruct (addMessage_result Assistant emptyQueryAdvice (focus w))
      as (Ar & Am & Ac & Av & Af & Aa & At).
    cbv zeta in *. rewrite Ar, Am, Ac, Av, Af, Aa, At. clear Ar Am Ac Av Af Aa At.
    pose proof (local_stage_blank (input_value w) H) as Hg.
    destruct (on_focus_result w) as (Oc & Or & Ov). cbv zeta in *.
    unfold lookup_of in Or. rewrite Hg in Or, Ov. rewrite app_nil_r in Or.
    unfold conversation in Oc.
    assert (Om : messages (on_focus w) = messages w) by congruence.
    assert (Och : chat (on_focus w) = chat w) by congruence.
    assert (Oval : input_value (on_focus w) = input_value w) by congruence.
    assert (Of : input_focused (on_focus w) = true) by congruence.
    destruct (input_focused w) eqn:F.
    + rewrite (focus_holding w F).
      do 4 (split; [reflexivity|]). split; [exact F|].
      split; [intros _; reflexivity | intros Hf; congruence].
    + rewrite (focus_taking w F). rewrite Or, Om, Och, Oval, Of.
      do 5 (split; [reflexivity|]). split.
      * intros [Hf|Hs]; [discriminate|].
        rewrite <- (focus_taking w F), (focus_short w Hs). reflexivity.
      * intros _ Hl. apply Nat.leb_le in Hl. rewrite Hl in Ov. split; [exact Ov|].
        unfold on_focus, handleAutocomplete_begin. cbv zeta.
        change (input_value (set_input_focused true w)) with (input_value w).
        rewrite Hl, Hg.
        replace (Js.nonempty (input_value w)) with true
          by (destruct (input_value w); [discriminate | reflexivity]).
        cbn [andb]. rewrite timers_hideAutocomplete.
        assert (Hb : input_blank (set_input_focused true w) = true)
          by (unfold input_blank;
              change (input_value (set_input_focused true w)) with (input_value w);
              rewrite H; apply orb_true_r).
        rewrite Hb. reflexivity.
  - destruct (Js.trim (input_value w)) as [|c q] eqn:E; [congruence|].
    cbn [Js.nonempty negb].
    destruct (sendMessageWithQuery_result (String c q) now w) as (Hm & Hc & Hr & _).
    repeat split; assumption.
Qed.

(* ------------------------------------------------------------------ *)
(** ** The properties at concrete inputs *)

Example split_ws_runs : Js.split_ws "how  many cases" = ["how"; "many"; "cases"].
Proof. reflexivity. Qed.

Example split_space_pieces : Js.split_space "zz  qq" = ["zz"; ""; "qq"].
Proof. reflexivity. Qed.

Example trim_both_ends : Js.trim "  Total  Weight  " = "Total  Weight".
Proof. reflexivity. Qed.

Example set_spread_first_seen :
  Js.set_spread ["a"; "b"; "a"; "c"; "b"] = ["a"; "b"; "c"].
Proof. reflexivity. Qed.

Example keyword_what :
  handleAutocomplete "what" (fun _ => AcRejected) =
  {| steps := [StepLocal];
     action := AcShow [ "What are all the column names in this dataset?";
                        "What is the total transportation cost?";
                        "What are all the source locations?";
                        "What products are being shipped?";
                        "What is the total weight?" ] "what" |}.
Proof. vm_compute. reflexivity. Qed.

Example keyword_inherited_constructor :
  action (handleAutocomplete "my constructor" (fun _ => AcRejected)) = AcThrow.
Proof. vm_compute. reflexivity. Qed.

Example asked_pending : inflight asked = [sample_call].
Proof. vm_compute. reflexivity. Qed.

Example pattern_ignores_case : hasPersonalInfo "the MOBILE number is unknown" = true.
Proof. vm_compute. reflexivity. Qed.


Lemma last_word_fallback_witness :
  In (StepFallback "qq") (steps (handleAutocomplete "Zz qq " (refusing_all_but "qq" ["QQ 1"])))
  /\ action (handleAutocomplete "Zz qq " (refusing_all_but "qq" ["QQ 1"]))
     = AcShow ["QQ 1"] "Zz qq".
Proof.
  pose proof (last_word_fallback "Zz qq " (refusing_all_but "qq" ["QQ 1"])
                (initial "http://localhost:5000/api")) as [H1 H2].
  cbv zeta in *.
  assert (Hin : In (StepFallback "qq")
                   (steps (handleAutocomplete "Zz qq " (refusing_all_but "qq" ["QQ 1"])))).
  { apply H1. split; [reflexivity|]. split.
    - split; [vm_compute; auto | exists AcMalformed; reflexivity].
    - split; [discriminate | vm_compute; lia]. }
  split; [exact Hin|].
  exact (proj1 (H2 Hin) "QQ 1" [] eq_refl).
Defined.

Lemma blank_send_only_advises_witness :
  let w := set_input_value "   " (initial "http://localhost:5000/api") in
  requests (sendMessage 1000 w) = [] /\
  messages (sendMessage 1000 w) = [(Assistant, emptyQueryAdvice)] /\
  chat (sendMessage 1000 w) = [Bubble Assistant emptyQueryAdvice] /\
  input_value (sendMessage 1000 w) = "   " /\
  ac_visible (sendMessage 1000 w) = false /\
  timers (sendMessage 1000 w) = [{| handle := 1; delay := 100; run := CbResetPrevent |}].
Proof.
  cbv zeta.
  destruct (proj1 (blank_send_only_advises 1000
                     (set_input_value "   " (initial "http://localhost:5000/api")))
                  eq_refl) as (Hr & Hm & Hc & Hv & _ & _ & Ht).
  destruct (Ht eq_refl (le_S 2 2 (le_n 2))) as (Ha & Hq).
  split; [exact Hr|]. split; [exact Hm|]. split; [exact Hc|]. split; [exact Hv|].
  split; [exact Ha | exact Hq].
Defined.

Lemma resolver_needs_two_characters_witness :
  steps (handleAutocomplete " w " (fun _ => AcRejected)) = [] /\
  action (handleAutocomplete " w " (fun _ => AcRejected)) = AcHide.
Proof.
  destruct (resolver_needs_two_characters " w " (fun _ => AcRejected)) as (H1 & H2 & _).
  cbv zeta in *.
  assert (H : steps (handleAutocomplete " w " (fun _ => AcRejected)) = [])
    by (apply H1; vm_compute; lia).
  split; [exact H | exact (H2 H)].
Defined.
